(** * anno: the HTML-extraction filter and the academic-digest demo

    A shallow embedding of the two Python scripts of the repository,

    - [scripts/extract_trafilatura.py] (module [Extract]),
    - [examples/academic-digest.py]    (module [Digest]),

    over a small model of the Python runtime they rely on (module [Py]):
    values, exceptions, [json.dumps], subscripting, [format].  The semantic
    index and RAG service that the demo talks to is not part of these
    sources; module [Service] models it from the specification. *)

From Stdlib Require Import ZArith NArith QArith String Ascii List Lia DecimalString Sorted.
From stdpp Require Import gmap list.

Set Warnings "-register-all,-clear-no-such-hyp".
Local Open Scope Z_scope.

(* ===================================================================== *)
(** * The Python runtime                                                  *)
(* ===================================================================== *)

Module Py.

(** A Python [str] is a sequence of Unicode code points. *)
Definition codepoint := N.
Definition pystr := list codepoint.

(** A literal of the source text; its characters are ASCII. *)
Definition py (s : string) : pystr :=
  List.map N_of_ascii (list_ascii_of_string s).

(** A [float] is an IEEE double: every finite double is
    [(-1)^neg * m * 2^e] for some [m] and [e]. *)
Inductive float64 :=
| FFinite (neg : bool) (m : N) (e : Z)
| FInf (neg : bool)
| FNan.

(** The values the scripts handle: what [json.loads] produces, what the
    extraction library hands back, and [VObj], an object of some other
    class (no [get], not subscriptable, not iterable, not JSON
    serialisable).  A [dict] keeps its keys in insertion order, and the
    keys of every [dict] met here are strings. *)
Inductive value :=
| VNone
| VBool (b : bool)
| VInt (z : Z)
| VFloat (f : float64)
| VStr (s : pystr)
| VList (l : list value)
| VDict (d : list (pystr * value))
| VObj (cls : pystr).

(** Exceptions.  [except Exception] catches [Error]s only: [SystemExit] and
    [KeyboardInterrupt] derive from [BaseException] directly. *)
Inductive exn :=
| Error (cls : string)
| SystemExit (code : Z)
| KeyboardInterrupt.

Definition is_Exception (e : exn) : bool :=
  match e with
  | Error _ => true
  | SystemExit _ | KeyboardInterrupt => false
  end.

Definition KeyError := Error "KeyError".
Definition TypeError := Error "TypeError".
Definition ValueError := Error "ValueError".
Definition AttributeError := Error "AttributeError".
Definition OverflowError := Error "OverflowError".
Definition UnicodeEncodeError := Error "UnicodeEncodeError".

(** The result of evaluating an expression. *)
Inductive result (A : Type) :=
| Ret (a : A)
| Raise (e : exn).
Arguments Ret {A} a.
Arguments Raise {A} e.

(** A statement runs in a world of type [W] (standard streams, the log of
    calls that left the process); what it did to the world before raising
    stays done. *)
Definition prog (W A : Type) := W -> result A * W.

Definition ret {W A} (a : A) : prog W A := fun w => (Ret a, w).
Definition raise {W A} (e : exn) : prog W A := fun w => (Raise e, w).
Definition lift {W A} (r : result A) : prog W A := fun w => (r, w).

Definition bind {W A B} (c : prog W A) (k : A -> prog W B) : prog W B :=
  fun w =>
    match c w with
    | (Ret a, w') => k a w'
    | (Raise e, w') => (Raise e, w')
    end.

(** [try: body except Exception: handler] *)
Definition try_except {W A} (body handler : prog W A) : prog W A :=
  fun w =>
    match body w with
    | (Ret a, w') => (Ret a, w')
    | (Raise e, w') => if is_Exception e then handler w' else (Raise e, w')
    end.

(** [for x in xs: body x] *)
Fixpoint for_each {W A} (xs : list A) (body : A -> prog W unit) : prog W unit :=
  match xs with
  | [] => ret tt
  | x :: rest => bind (body x) (fun _ => for_each rest body)
  end.

Declare Scope py_scope.
Delimit Scope py_scope with py.
Notation "x <- c ;; k" := (bind c (fun x => k))
  (at level 100, c at next level, right associativity) : py_scope.
Notation "c ;;; k" := (bind c (fun _ => k))
  (at level 100, right associativity) : py_scope.

(** ** Truth values, dictionaries, subscripts, iteration *)

(** [bool(v)] *)
Definition truthy (v : value) : bool :=
  match v with
  | VNone => false
  | VBool b => b
  | VInt z => negb (z =? 0)
  | VFloat (FFinite _ m _) => negb (m =? 0)%N
  | VFloat _ => true
  | VStr s => match s with [] => false | _ => true end
  | VList l => match l with [] => false | _ => true end
  | VDict d => match d with [] => false | _ => true end
  | VObj _ => true
  end.

(** [a or b] *)
Definition py_or (a b : value) : value := if truthy a then a else b.

Definition str_eqb (a b : pystr) : bool := bool_decide (a = b).

Fixpoint dict_lookup (d : list (pystr * value)) (k : pystr) : option value :=
  match d with
  | [] => None
  | (k', v) :: rest => if str_eqb k' k then Some v else dict_lookup rest k
  end.

Definition dict_keys (d : list (pystr * value)) : list pystr := List.map fst d.

(** [v.get(key, default)]: only a [dict] has the method. *)
Definition get (v : value) (key : pystr) (default : value) : result value :=
  match v with
  | VDict d => Ret (match dict_lookup d key with Some x => x | None => default end)
  | _ => Raise AttributeError
  end.

(** [v[key]] for a string [key]. *)
Definition getitem (v : value) (key : pystr) : result value :=
  match v with
  | VDict d => match dict_lookup d key with Some x => Ret x | None => Raise KeyError end
  | _ => Raise TypeError
  end.

(** The items [for x in v] runs through. *)
Definition iter (v : value) : result (list value) :=
  match v with
  | VList l => Ret l
  | VDict d => Ret (List.map (fun kv => VStr (fst kv)) d)
  | VStr s => Ret (List.map (fun c => VStr [c]) s)
  | _ => Raise TypeError
  end.

(** ** Text conversions *)

Definition digit (n : N) : codepoint := (48 + n)%N.

(** Decimal digits of a natural number, most significant first. *)
Definition decimal_N (n : N) : pystr := py (NilZero.string_of_uint (N.to_uint n)).

(** [int.__repr__] *)
Definition decimal (z : Z) : pystr :=
  if z <? 0 then py "-" ++ decimal_N (Z.abs_N z) else decimal_N (Z.abs_N z).

Definition hex_digit (n : N) : codepoint :=
  if (n <? 10)%N then (48 + n)%N else (87 + n)%N.

(** ['{0:04x}'.format(n)] for [n < 0x10000] *)
Definition hex4 (n : N) : pystr :=
  [ hex_digit (N.shiftr n 12 mod 16); hex_digit (N.shiftr n 8 mod 16);
    hex_digit (N.shiftr n 4 mod 16); hex_digit (n mod 16) ]%N.

(** [json.encoder.py_encode_basestring_ascii]: what one character of a
    string becomes between the quotes.  (The literals below hold no escape
    of their own: each backslash in them is a backslash of the output.) *)
Definition escape_char (c : codepoint) : pystr :=
  (if c =? 92 then py "\\"
   else if c =? 34 then [92; 34]
   else if c =? 8 then py "\b"
   else if c =? 12 then py "\f"
   else if c =? 10 then py "\n"
   else if c =? 13 then py "\r"
   else if c =? 9 then py "\t"
   else if (32 <=? c) && (c <=? 126) then [c]
   else if c <? 65536 then py "\u" ++ hex4 c
   else
     let n := c - 65536 in
     let s1 := N.lor 55296 (N.land (N.shiftr n 10) 1023) in
     let s2 := N.lor 56320 (N.land n 1023) in
     py "\u" ++ hex4 s1 ++ py "\u" ++ hex4 s2)%N.

Definition quote : pystr := [34%N].

Definition encode_basestring_ascii (s : pystr) : pystr :=
  quote ++ List.concat (List.map escape_char s) ++ quote.

(** [sep.join(parts)] *)
Fixpoint join (sep : pystr) (parts : list pystr) : pystr :=
  match parts with
  | [] => []
  | [p] => p
  | p :: rest => p ++ sep ++ join sep rest
  end.

(** Rounding of [num / den] to the nearest integer, ties to even. *)
Definition round_half_even (num den : N) : N :=
  (let q := num / den in
   let r := num mod den in
   if (den <? 2 * r) || ((2 * r =? den) && N.odd q) then q + 1 else q)%N.

Definition sign (neg : bool) : pystr := if neg then py "-" else [].

(** [format(f, '.2f')] of a float: the exact value, correctly rounded to two
    decimals. *)
Definition fixed2 (f : float64) : pystr :=
  match f with
  | FNan => py "nan"
  | FInf neg => sign neg ++ py "inf"
  | FFinite neg m e =>
      let n := if 0 <=? e then (m * 2 ^ Z.to_N e * 100)%N
               else round_half_even (m * 100) (2 ^ Z.to_N (- e)) in
      sign neg ++ decimal_N (n / 100) ++ py "."
        ++ [digit (n / 10 mod 10); digit (n mod 10)]%N
  end.

(** [float(z)]: the nearest double, ties to even; [OverflowError] when that
    is beyond the largest double. *)
Definition float_of_int (z : Z) : result float64 :=
  (let a := Z.abs_N z in
   let bits := N.size a in
   if bits <=? 53 then Ret (FFinite (z <? 0)%Z a 0)
   else
     let sh := bits - 53 in
     let q := round_half_even a (2 ^ sh) in
     if 2 ^ 1024 <=? q * 2 ^ sh then Raise OverflowError
     else Ret (FFinite (z <? 0)%Z q (Z.of_N sh)))%N.

(** [format(v, '.2f')], as the f-string field [{v:.2f}] computes it. *)
Definition format_2f (v : value) : result pystr :=
  match v with
  | VFloat f => Ret (fixed2 f)
  | VInt z =>
      match float_of_int z with
      | Ret f => Ret (fixed2 f)
      | Raise e => Raise e
      end
  | VBool b => Ret (fixed2 (FFinite false (if b then 1 else 0) 0))
  | VStr _ => Raise ValueError
  | VNone | VList _ | VDict _ | VObj _ => Raise TypeError
  end.

(** The encoder's loop over the items of a list or of a dictionary: each is
    rendered in turn, and the first that cannot be stops the loop. *)
Definition dumps_all {A} (render : A -> result pystr) : list A -> result (list pystr) :=
  fix loop (l : list A) : result (list pystr) :=
    match l with
    | [] => Ret []
    | x :: rest =>
        match render x with
        | Raise e => Raise e
        | Ret s =>
            match loop rest with
            | Raise e => Raise e
            | Ret ss => Ret (s :: ss)
            end
        end
    end.

Section Repr.

(** [repr] of the interpreter (shortest round-trip digits of a float,
    quoting of a string, ...) is not part of the scripts: a parameter. *)
Variable py_repr : value -> pystr.

(** [str(v)], which is also [format(v, '')], the f-string field [{v}]. *)
Definition py_str (v : value) : pystr :=
  match v with
  | VStr s => s
  | VNone => py "None"
  | VBool true => py "True"
  | VBool false => py "False"
  | VInt z => decimal z
  | _ => py_repr v
  end.

(** [json.dumps(v)] with its defaults: [ensure_ascii], separators
    [', '] and [': '], [allow_nan].  The encoder proper: the interpreter's
    limits on the digits of an integer and on the depth of recursion are
    left out, see [modest] below. *)
Fixpoint json_dumps (v : value) : result pystr :=
  match v with
  | VNone => Ret (py "null")
  | VBool true => Ret (py "true")
  | VBool false => Ret (py "false")
  | VInt z => Ret (decimal z)
  | VFloat FNan => Ret (py "NaN")
  | VFloat (FInf false) => Ret (py "Infinity")
  | VFloat (FInf true) => Ret (py "-Infinity")
  | VFloat f => Ret (py_repr (VFloat f))
  | VStr s => Ret (encode_basestring_ascii s)
  | VList l =>
      match dumps_all json_dumps l with
      | Raise e => Raise e
      | Ret ss => Ret (py "[" ++ join (py ", ") ss ++ py "]")
      end
  | VDict d =>
      match
        dumps_all
          (fun kv =>
             let (k, x) := kv : pystr * value in
             match json_dumps x with
             | Raise e => Raise e
             | Ret s => Ret (encode_basestring_ascii k ++ py ": " ++ s)
             end) d
      with
      | Raise e => Raise e
      | Ret ss => Ret (py "{" ++ join (py ", ") ss ++ py "}")
      end
  | VObj _ => Raise TypeError
  end.

End Repr.

(** Text made of printable ASCII characters only, space to tilde: no line
    break, no control character, nothing beyond 7 bits. *)
Definition printable (s : pystr) : Prop :=
  Forall (fun c => (32 <= c <= 126)%N) s.

(** Values [json.dumps] turns into text under every setting of the
    interpreter's limits: no object of a foreign class, no integer of more
    than 640 digits (the least value the limit on integer-to-text conversion
    can be set to), containers nested at most [depth] deep.  Beyond these,
    CPython may raise [ValueError] or [RecursionError] where [json_dumps]
    above returns. *)
Fixpoint modest (depth : nat) (v : value) : bool :=
  match v with
  | VNone | VBool _ | VFloat _ | VStr _ => true
  | VInt z => Z.abs z <? 10 ^ 640
  | VList l =>
      match depth with
      | O => false
      | S d => forallb (modest d) l
      end
  | VDict m =>
      match depth with
      | O => false
      | S d => forallb (fun kv => let (_, x) := kv : pystr * value in modest d x) m
      end
  | VObj _ => false
  end.

(** The values [json.dumps] accepts: no object of a foreign class inside. *)
Fixpoint serialisable (v : value) : bool :=
  match v with
  | VObj _ => false
  | VList l => forallb serialisable l
  | VDict d => forallb (fun kv => let (_, x) := kv : pystr * value in serialisable x) d
  | _ => true
  end.

End Py.

(* ===================================================================== *)
(** * scripts/extract_trafilatura.py                                      *)
(* ===================================================================== *)

Module Extract.
Import Py.
Local Open Scope py_scope.

(** The two functions of the trafilatura library the script calls,
    [extract(html, with_metadata=True, include_comments=False,
    include_tables=False)] and [bare_extraction(html)].  A run calls each at
    most once, on what it read from stdin, so a function of that argument
    covers every behaviour of the library. *)
Record trafilatura := {
  extract : pystr -> result value;
  bare_extraction : pystr -> result value
}.

(** What [import trafilatura] does. *)
Inductive import_result :=
| Imported (lib : trafilatura)
| ImportRaises (e : exn).

Inductive call :=
| CallExtract (html : pystr)
| CallBareExtraction (html : pystr).

(** The process: what is left to read on stdin, the text written to stdout,
    and the calls made into the library so far. *)
Record world := {
  stdin : pystr;
  stdout : pystr;
  calls : list call
}.

Definition newline : pystr := [10%N].

(** [print(s)].  The script prints the text of [json.dumps] only, which
    [ensure_ascii] keeps within ASCII, so that stdout's encoding takes every
    character of it. *)
Definition print (s : pystr) : prog world unit :=
  fun w => (Ret tt, {| stdin := stdin w;
                       stdout := stdout w ++ s ++ newline;
                       calls := calls w |}).

(** [sys.stdin.read()], where [stdin w] is the text the bytes on stdin
    decode to.  Bytes that do not decode in stdin's encoding make the read
    raise [UnicodeDecodeError] on line 13, outside the [try]: such input is
    no text and no world stands for it. *)
Definition stdin_read : prog world pystr :=
  fun w => (Ret (stdin w), {| stdin := []; stdout := stdout w; calls := calls w |}).

Definition log_call (c : call) (w : world) : world :=
  {| stdin := stdin w; stdout := stdout w; calls := calls w ++ [c] |}.

Definition call_extract (lib : trafilatura) (html : pystr) : prog world value :=
  fun w => (extract lib html, log_call (CallExtract html) w).

Definition call_bare_extraction (lib : trafilatura) (html : pystr) : prog world value :=
  fun w => (bare_extraction lib html, log_call (CallBareExtraction html) w).

(** [sys.exit(code)] *)
Definition sys_exit {A} (code : Z) : prog world A := raise (SystemExit code).

(** How the interpreter ends: with an exit status, or on an exception nobody
    caught (traceback on stderr, non-zero status). *)
Inductive outcome :=
| Exit (status : Z)
| Uncaught (e : exn).

Definition outcome_of (r : result unit) : outcome :=
  match r with
  | Ret _ => Exit 0
  | Raise (SystemExit code) => Exit code
  | Raise e => Uncaught e
  end.

(** What [meta.get(key)] evaluates to when [meta] is the dictionary [d]. *)
Definition meta_get (d : list (pystr * value)) (key : pystr) : value :=
  match dict_lookup d key with
  | Some x => x
  | None => VNone
  end.

(** The world once [main] has read stdin, called [extract] and, where
    [metadata] is set, [bare_extraction], and written [text]. *)
Definition after_calls (w : world) (metadata : bool) (text : pystr) : world :=
  {| stdin := [];
     stdout := stdout w ++ text;
     calls := calls w ++ CallExtract (stdin w)
                :: (if metadata then [ CallBareExtraction (stdin w) ] else []) |}.

(** ["key": ] as [json.dumps] writes it before a member. *)
Definition member_key (k : string) : pystr := quote ++ py k ++ quote ++ py ": ".

(** The text of the object of lines 25-31, from the texts of its five
    members. *)
Definition record_text (title text author date language : pystr) : pystr :=
  py "{" ++ member_key "title" ++ title
    ++ py ", " ++ member_key "text" ++ text
    ++ py ", " ++ member_key "author" ++ author
    ++ py ", " ++ member_key "date" ++ date
    ++ py ", " ++ member_key "language" ++ language
    ++ py "}".

Section Script.

Variable py_repr : value -> pystr.

(** [print(json.dumps(v))] *)
Definition print_json (v : value) : prog world unit :=
  s <- lift (json_dumps py_repr v) ;; print s.

(** The dictionary built on lines 25-31. *)
Definition out_dict (title downloaded author date language : value) : value :=
  VDict [ (py "title", title);
          (py "text", downloaded);
          (py "author", author);
          (py "date", date);
          (py "language", language) ].

Definition main (lib : trafilatura) : prog world unit :=
  html <- stdin_read ;;
  if negb (truthy (VStr html)) then
    print_json (VDict [])
  else
    try_except
      (downloaded <- call_extract lib html ;;
       match downloaded with
       | VNone => print_json (VDict [])
       | _ =>
           extracted <- call_bare_extraction lib html ;;
           let meta := py_or extracted (VDict []) in
           title <- lift (get meta (py "title") VNone) ;;
           author <- lift (get meta (py "author") VNone) ;;
           date <- lift (get meta (py "date") VNone) ;;
           language <- lift (get meta (py "lang") VNone) ;;
           print_json (out_dict title downloaded author date language)
       end)
      (print_json (VDict [])).

(** The module body: the guarded import, then [main()] when the file runs
    as a script ([__name__ == '__main__']). *)
Definition script (imp : import_result) (name : pystr) : prog world unit :=
  lib <- try_except
           (lift (match imp with
                  | Imported lib => Ret lib
                  | ImportRaises e => Raise e
                  end))
           (print_json (VDict []) ;;; sys_exit 0) ;;
  if str_eqb name (py "__main__") then main lib else ret tt.

Definition run (imp : import_result) (name : pystr) (w : world) : outcome * world :=
  let (r, w') := script imp name w in (outcome_of r, w').

End Script.

End Extract.

(* ===================================================================== *)
(** * examples/academic-digest.py                                         *)
(* ===================================================================== *)

Module Digest.
Import Py.
Local Open Scope py_scope.

Definition API_BASE : pystr := py "http://localhost:5213".

Definition DOCUMENTS : value :=
  VDict
    [ (py "documents",
       VList
         [ VDict
             [ (py "id", VStr (py "paper-llm"));
               (py "text",
                VStr (py "This paper explores retrieval augmented language models for domain adaptation."));
               (py "metadata",
                VDict [ (py "url", VStr (py "https://papers.example.com/rag")) ]) ];
           VDict
             [ (py "id", VStr (py "paper-eval"));
               (py "text",
                VStr (py "We propose evaluation metrics for agent coordination in multi-step tasks."));
               (py "metadata",
                VDict [ (py "url", VStr (py "https://papers.example.com/eval")) ]) ] ]) ].

(** The payload of the second call, lines 45-50. *)
Definition RAG_QUERY : value :=
  VDict
    [ (py "query",
       VStr (py "Summarize recent advances in retrieval augmented language models"));
      (py "sessionId", VStr (py "academic-session"));
      (py "k", VInt 2);
      (py "summaryLevels", VList [ VStr (py "paragraph") ]) ].

(** A [urllib.request.Request] carrying [data] is sent as a POST. *)
Record request := {
  url : pystr;
  data : pystr;
  headers : list (pystr * pystr)
}.

(** The process: the text written to stdout and the requests sent. *)
Record world := {
  stdout : pystr;
  sent : list request
}.

(** The other end of [urlopen]: from the requests sent so far (the last one
    is the one being answered) to what [json.loads(resp.read().decode())]
    evaluates to, or to the exception that [urlopen], [read], [decode] or
    [json.loads] raises. *)
Definition server := list request -> result value.

Definition newline : pystr := [10%N].

Definition urlopen_json (srv : server) (req : request) : prog world value :=
  fun w =>
    let history := sent w ++ [req] in
    (srv history, {| stdout := stdout w; sent := history |}).

Section Demo.

Variable py_repr : value -> pystr.

(** The encoding of stdout, with its error handler, is the interpreter's:
    [encodes c] says whether it can write the character [c] beyond ASCII.
    Every encoding Python gives stdout writes the ASCII characters. *)
Variable encodes : codepoint -> bool.

Variable srv : server.

Definition can_encode (c : codepoint) : bool := (c <? 128)%N || encodes c.

(** The texts stdout can write. *)
Definition writes (s : pystr) : bool := forallb can_encode s.

(** [print(s)]: the text and a line break go to stdout, or, when stdout
    cannot encode the text, [UnicodeEncodeError] is raised and nothing is
    written. *)
Definition print (s : pystr) : prog world unit :=
  fun w =>
    if writes s
    then (Ret tt, {| stdout := stdout w ++ s ++ newline; sent := sent w |})
    else (Raise UnicodeEncodeError, w).

(** The body is [json.dumps(payload).encode("utf-8")]; the text
    [json.dumps] returns is ASCII, one byte per character. *)
Definition post_json (path : pystr) (payload : value) : prog world value :=
  body <- lift (json_dumps py_repr payload) ;;
  urlopen_json srv
    {| url := API_BASE ++ path;
       data := body;
       headers := [ (py "Content-Type", py "application/json") ] |}.

Definition result_bind {A B} (r : result A) (k : A -> result B) : result B :=
  match r with
  | Ret a => k a
  | Raise e => Raise e
  end.

(** The f-string of line 58,
    [f"- {cite['id']} (score={cite['score']:.2f}) {cite.get('url', '')}"]:
    each field is evaluated and formatted in turn, left to right. *)
Definition citation_line (cite : value) : result pystr :=
  result_bind (getitem cite (py "id")) (fun id =>
  result_bind (getitem cite (py "score")) (fun score =>
  result_bind (format_2f score) (fun score_text =>
  result_bind (get cite (py "url") (VStr [])) (fun link =>
  Ret (py "- " ++ py_str py_repr id ++ py " (score=" ++ score_text ++ py ") "
         ++ py_str py_repr link))))).

(** Lines 57-58: [for cite in rag["citations"]: print(f"...")] *)
Definition print_citations (rag : value) : prog world unit :=
  citations <- lift (getitem rag (py "citations")) ;;
  items <- lift (iter citations) ;;
  for_each items (fun cite => line <- lift (citation_line cite) ;; print line).

Definition main : prog world unit :=
  print (py "Indexing academic snippets...") ;;;
  _ <- post_json (py "/v1/semantic/index") DOCUMENTS ;;
  print (py "Running RAG query...") ;;;
  rag <- post_json (py "/v1/semantic/rag") RAG_QUERY ;;
  print (newline ++ py "=== Academic Digest ===") ;;;
  answer <- lift (getitem rag (py "answer")) ;;
  print (py_str py_repr answer) ;;;
  print (newline ++ py "Citations:") ;;;
  print_citations rag.

End Demo.

(** The request [post_json(path, payload)] sends, given the text of its
    body. *)
Definition posted (path body : pystr) : request :=
  {| url := API_BASE ++ path;
     data := body;
     headers := [ (py "Content-Type", py "application/json") ] |}.

(** The text of [json.dumps(DOCUMENTS)] and of [json.dumps] of the payload
    of lines 45-50, computed. *)
Definition index_body : pystr :=
  Eval vm_compute in
    match json_dumps (fun _ => []) DOCUMENTS with Ret b => b | Raise _ => [] end.

Definition rag_body : pystr :=
  Eval vm_compute in
    match json_dumps (fun _ => []) RAG_QUERY with Ret b => b | Raise _ => [] end.

(** The two requests of [main]. *)
Definition index_request : request := posted (py "/v1/semantic/index") index_body.
Definition rag_request : request := posted (py "/v1/semantic/rag") rag_body.

(** What [main] has written once it has announced the first call, and once
    it has announced the second. *)
Definition announced_index (out : pystr) : pystr :=
  out ++ py "Indexing academic snippets..." ++ newline.

Definition announced_rag (out : pystr) : pystr :=
  announced_index out ++ py "Running RAG query..." ++ newline.

Section Report.

Variable py_repr : value -> pystr.
Variable encodes : codepoint -> bool.

(** Lines 53-58 of [main]: the digest printed from the response. *)
Definition report (rag : value) : prog world unit :=
  print encodes (newline ++ py "=== Academic Digest ===") ;;;
  answer <- lift (getitem rag (py "answer")) ;;
  print encodes (py_str py_repr answer) ;;;
  print encodes (newline ++ py "Citations:") ;;;
  print_citations py_repr encodes rag.

(** What a citation shows of the field [k]: its text, or nothing when the
    field is missing. *)
Definition field_text (d : list (pystr * value)) (k : pystr) : pystr :=
  match dict_lookup d k with
  | Some v => py_str py_repr v
  | None => []
  end.

(** A citation whose id and url, where it has them, stdout can write. *)
Definition can_write_citation (v : value) : bool :=
  match v with
  | VDict d =>
      writes encodes (field_text d (py "id")) && writes encodes (field_text d (py "url"))
  | _ => false
  end.

(** What stops the loop at a citation: its line cannot be made, or stdout
    cannot write it. *)
Definition stops_with (bad : value) (e : exn) : Prop :=
  citation_line py_repr bad = Raise e
  \/ exists line,
       citation_line py_repr bad = Ret line
       /\ writes encodes line = false /\ e = UnicodeEncodeError.

End Report.

(** A key and a string as they stand in JSON text, for spelling out the
    two bodies. *)
Definition json_key (k : string) : pystr := quote ++ py k ++ quote ++ py ": ".
Definition json_str (s : string) : pystr := quote ++ py s ++ quote.

(** A document of [DOCUMENTS], by its three fields. *)
Definition snippet (id text link : pystr) : value :=
  VDict [ (py "id", VStr id);
          (py "text", VStr text);
          (py "metadata", VDict [ (py "url", VStr link) ]) ].

(** ** The documented shapes of section 6 of the specification, as checks
    on a payload.  These follow the specification's words, not the script. *)

Definition is_str (v : value) : bool :=
  match v with VStr _ => true | _ => false end.

Definition has_field (d : list (pystr * value)) (k : pystr) (p : value -> bool) : bool :=
  match dict_lookup d k with
  | Some v => p v
  | None => false
  end.

(** [{string: string}] *)
Definition is_str_mapping (v : value) : bool :=
  match v with
  | VDict d => forallb (fun kv => is_str (snd kv)) d
  | _ => false
  end.

(** [{"id": string, "text": string, "metadata": {string: string}}], these
    three keys and no other. *)
Definition is_document (v : value) : bool :=
  match v with
  | VDict d =>
      (length d =? 3)%nat && has_field d (py "id") is_str
      && has_field d (py "text") is_str && has_field d (py "metadata") is_str_mapping
  | _ => false
  end.

(** [{"documents": [document, ...]}] *)
Definition is_index_request (v : value) : bool :=
  match v with
  | VDict [ (k, VList docs) ] => str_eqb k (py "documents") && forallb is_document docs
  | _ => false
  end.

Definition is_int (v : value) : bool :=
  match v with VInt _ => true | _ => false end.

Definition is_str_list (v : value) : bool :=
  match v with VList l => forallb is_str l | _ => false end.

(** [{"query": string, "sessionId": string, "k": integer,
      "summaryLevels": [string, ...]}], these four keys and no other. *)
Definition is_rag_request (v : value) : bool :=
  match v with
  | VDict d =>
      (length d =? 4)%nat && has_field d (py "query") is_str
      && has_field d (py "sessionId") is_str && has_field d (py "k") is_int
      && has_field d (py "summaryLevels") is_str_list
  | _ => false
  end.

(** Modelled from the spec: the orchestrator's argument check of section
    4.6, "fails with InvalidArgumentError if k < 1 or summaryLevels is
    empty"; the orchestrator's code is missing. *)
Definition fails_with_InvalidArgumentError (v : value) : bool :=
  match getitem v (py "k"), getitem v (py "summaryLevels") with
  | Ret (VInt k), Ret (VList levels) =>
      (k <? 1) || match levels with [] => true | _ => false end
  | _, _ => true
  end.

(** A JSON number that [format(_, '.2f')] can take: a float, or an integer
    within the range of a double. *)
Definition is_number (v : value) : bool :=
  match v with
  | VFloat _ => true
  | VInt z => Z.abs z <? 2 ^ 1023
  | _ => false
  end.

(** A citation that contains the fields "id" and "score", the score a
    number; "url" may be there or not. *)
Definition has_id_and_score (v : value) : bool :=
  match v with
  | VDict d =>
      has_field d (py "id") (fun _ => true) && has_field d (py "score") is_number
  | _ => false
  end.

(** [s] occurs in [t] *)
Fixpoint is_prefix (s t : pystr) : bool :=
  match s, t with
  | [], _ => true
  | a :: s', b :: t' => (a =? b)%N && is_prefix s' t'
  | _ :: _, [] => false
  end.

Fixpoint contains (t s : pystr) : bool :=
  is_prefix s t || match t with [] => false | _ :: t' => contains t' s end.

End Digest.

(* ===================================================================== *)
(** * The semantic index and retrieval service                            *)
(* ===================================================================== *)

(** The service the demo posts to is not among the sources.  Everything in
    this module is modelled from the specification (sections 3, 4.1 to 4.3
    and 4.6), sequentially: one call at a time. *)
Module Service.
Import Py.

(** Modelled from the spec: the Document of section 3, [{id, text,
    metadata: mapping string -> string}]; the server's code is missing. *)
Record document := {
  doc_id : pystr;
  doc_text : pystr;
  doc_metadata : gmap (list N) (list N)
}.

(** Modelled from the spec: the error taxonomy of section 7, as far as the
    operations below raise it. *)
Inductive error :=
| ValidationError
| NotFoundError
| EmptyIndexError.

Section Core.

(** Modelled from the spec: the Embedder, an external capability, text to
    a vector; and the cosine similarity of two vectors, a number (every
    finite double is a rational). *)
Variable embedding : Type.
Variable embed : pystr -> embedding.
Variable similarity : embedding -> embedding -> Q.

(** Modelled from the spec: the Document Store and the Vector Index the
    orchestrator owns.  The index keeps its entries in insertion order. *)
Record state := {
  store : gmap (list N) document;
  vindex : list (pystr * embedding)
}.

(** Modelled from the spec: [put] "validates id and text are non-empty". *)
Definition valid (d : document) : bool :=
  match doc_id d, doc_text d with
  | [], _ | _, [] => false
  | _, _ => true
  end.

(** Modelled from the spec: [put(document)], section 4.1: "stores/
    overwrites; fails with ValidationError if constraints violated". *)
Definition put (d : document) (s : gmap (list N) document)
  : error + gmap (list N) document :=
  if valid d then inr (<[doc_id d := d]> s) else inl ValidationError.

(** Modelled from the spec: [get(id)], section 4.1. *)
Definition get (id : pystr) (s : gmap (list N) document) : error + document :=
  match s !! id with
  | Some d => inr d
  | None => inl NotFoundError
  end.

(** Modelled from the spec: the loop of [putAll], "applies put for each
    element", on a working copy, up to the first error. *)
Fixpoint put_each (docs : list document) (s : gmap (list N) document)
  : error + gmap (list N) document :=
  match docs with
  | [] => inr s
  | d :: rest =>
      match put d s with
      | inl e => inl e
      | inr s' => put_each rest s'
      end
  end.

(** Modelled from the spec: [putAll(documents)], section 4.1: "either all
    succeed or the batch is rejected with the first validation error and
    no partial visible state".  The result is the error, if any, and the
    store readers see afterwards. *)
Definition putAll (docs : list document) (s : gmap (list N) document)
  : option error * gmap (list N) document :=
  match put_each docs s with
  | inl e => (Some e, s)
  | inr s' => (None, s')
  end.

(** Modelled from the spec: [insert(id, embedding)], section 4.2:
    "replaces any existing entry for id"; a new id goes last. *)
Fixpoint insert (id : pystr) (e : embedding) (idx : list (pystr * embedding))
  : list (pystr * embedding) :=
  match idx with
  | [] => [ (id, e) ]
  | (id', e') :: rest =>
      if str_eqb id' id then (id, e) :: rest else (id', e') :: insert id e rest
  end.

(** Modelled from the spec: the order of [search], "descending score; ties
    broken by insertion order (earliest inserted wins)". *)
Fixpoint rank_insert {A} (x : A * Q) (l : list (A * Q)) : list (A * Q) :=
  match l with
  | [] => [ x ]
  | y :: rest =>
      if Qle_bool (snd y) (snd x) then x :: y :: rest else y :: rank_insert x rest
  end.

(** Modelled from the spec: the entries of an index in the order [search]
    reports them. *)
Definition rank {A} (l : list (A * Q)) : list (A * Q) :=
  foldr rank_insert [] l.

(** Modelled from the spec: [search(queryEmbedding, k)], section 4.2: "up
    to k (id, score) pairs ordered by descending score; ties broken by
    insertion order"; on an empty index, [EmptyIndexError]. *)
Definition search (q : embedding) (k : Z) (idx : list (pystr * embedding))
  : error + list (pystr * Q) :=
  match idx with
  | [] => inl EmptyIndexError
  | _ =>
      inr (take (Z.to_nat k)
             (rank (List.map (fun ie => (fst ie, similarity q (snd ie))) idx)))
  end.

(** Modelled from the spec: [retrieve(query, k)], section 4.3: embeds the
    query, searches, resolves each id through the Document Store; an id
    that no longer resolves "is dropped silently". *)
Definition retrieve (query : pystr) (k : Z) (st : state)
  : error + list (document * Q) :=
  match search (embed query) k (vindex st) with
  | inl e => inl e
  | inr hits =>
      inr (omap (fun hit =>
                   match get (fst hit) (store st) with
                   | inr d => Some (d, snd hit)
                   | inl _ => None
                   end) hits)
  end.

(** Modelled from the spec: the Document Store once every document of a
    batch has been [put], in order (a later document overwrites an earlier
    one of the same id). *)
Definition stored (s : gmap (list N) document) (docs : list document)
  : gmap (list N) document :=
  foldl (fun s d => <[doc_id d := d]> s) s docs.

(** Modelled from the spec: the Vector Index once the embedding of every
    document of a batch has been inserted, in order. *)
Definition indexed (idx : list (pystr * embedding)) (docs : list document)
  : list (pystr * embedding) :=
  foldl (fun idx d => insert (doc_id d) (embed (doc_text d)) idx) idx docs.

(** Modelled from the spec: [index(documents)], section 4.6: "delegates
    to Document Store putAll, then Vector Index insert for each newly
    embedded Document; fails the whole call if any document fails
    validation". *)
Definition index (docs : list document) (st : state) : option error * state :=
  match putAll docs (store st) with
  | (Some e, _) => (Some e, st)
  | (None, s') =>
      (None, {| store := s'; vindex := indexed (vindex st) docs |})
  end.

(** Modelled from the spec: the number of entries the Vector Index holds
    for [id] ("exactly one entry for that id"). *)
Definition entries_for (id : pystr) (idx : list (pystr * embedding)) : nat :=
  length (filter (fun ie => fst ie = id) idx).

(** Modelled from the spec: "ordered by non-increasing score". *)
Definition descending {A} (l : list (A * Q)) : Prop :=
  StronglySorted (fun a b => (snd b <= snd a)%Q) l.

End Core.

Arguments store {embedding} _.
Arguments vindex {embedding} _.
Arguments insert {embedding} _ _ _.
Arguments search {embedding} _ _ _ _.
Arguments retrieve {embedding} _ _ _ _ _.
Arguments index {embedding} _ _ _.
Arguments indexed {embedding} _ _ _.
Arguments entries_for {embedding} _ _.

End Service.

(* ===================================================================== *)
(** * Concrete runs                                                       *)
(* ===================================================================== *)

(** Inputs the properties below are instantiated on. *)
Module Samples.
Import Py.

(** A [repr] for the runs below, none of which needs one. *)
Definition sample_repr : value -> pystr := fun _ => py "?".

Definition page : pystr := py "<html><body><p>Hello</p></body></html>".

(** A library whose [extract] raises. *)
Definition lib_raising : Extract.trafilatura :=
  {| Extract.extract := fun _ => Raise ValueError;
     Extract.bare_extraction := fun _ => Ret VNone |}.

(** A library that finds the text, a title and a language. *)
Definition lib_ok : Extract.trafilatura :=
  {| Extract.extract := fun _ => Ret (VStr (py "Hello"));
     Extract.bare_extraction :=
       fun _ => Ret (VDict [ (py "title", VStr (py "Greeting"));
                             (py "lang", VStr (py "en")) ]) |}.

(** A library interrupted from the keyboard while it extracts. *)
Definition lib_interrupted : Extract.trafilatura :=
  {| Extract.extract := fun _ => Raise KeyboardInterrupt;
     Extract.bare_extraction := fun _ => Ret VNone |}.

(** A library that finds the text and then fails on the metadata. *)
Definition lib_metadata_raises : Extract.trafilatura :=
  {| Extract.extract := fun _ => Ret (VStr (py "Hello"));
     Extract.bare_extraction := fun _ => Raise ValueError |}.

(** A library whose [bare_extraction] returns an object, not a [dict]. *)
Definition lib_document_object : Extract.trafilatura :=
  {| Extract.extract := fun _ => Ret (VStr (py "Hello"));
     Extract.bare_extraction := fun _ => Ret (VObj (py "Document")) |}.

(** A library whose metadata holds a date object. *)
Definition lib_date_object : Extract.trafilatura :=
  {| Extract.extract := fun _ => Ret (VStr (py "Hello"));
     Extract.bare_extraction :=
       fun _ => Ret (VDict [ (py "date", VObj (py "datetime")) ]) |}.

(** A library that finds the text and no metadata. *)
Definition lib_no_metadata : Extract.trafilatura :=
  {| Extract.extract := fun _ => Ret (VStr (py "Hello"));
     Extract.bare_extraction := fun _ => Ret VNone |}.

Definition piped (input : pystr) : Extract.world :=
  {| Extract.stdin := input; Extract.stdout := []; Extract.calls := [] |}.

(** A response of the documented shape; the second citation has no url and
    the scores are 0.875 and 0. *)
Definition sample_response : value :=
  VDict
    [ (py "answer", VStr (py "Retrieval helps."));
      (py "citations",
       VList
         [ VDict [ (py "id", VStr (py "paper-llm"));
                   (py "score", VFloat (FFinite false 7 (-3)));
                   (py "url", VStr (py "https://papers.example.com/rag")) ];
           VDict [ (py "id", VStr (py "paper-eval"));
                   (py "score", VInt 0) ] ]) ].

(** A server that acknowledges the first request and answers the second. *)
Definition sample_server : Digest.server :=
  fun history =>
    match history with
    | [ _ ] => Ret (VDict [ (py "status", VStr (py "ok")) ])
    | _ => Ret sample_response
    end.

(** A server that is down. *)
Definition server_down : Digest.server := fun _ => Raise (Error "URLError").

(** A server that indexes and then fails on the query. *)
Definition server_fails_on_query : Digest.server :=
  fun history =>
    match history with
    | [ _ ] => Ret VNone
    | _ => Raise (Error "HTTPError")
    end.

(** A server that answers every request with [response]. *)
Definition server_answering (response : value) : Digest.server :=
  fun _ => Ret response.

(** A response whose second citation has no score. *)
Definition response_missing_score : value :=
  VDict
    [ (py "answer", VStr (py "Retrieval helps."));
      (py "citations",
       VList
         [ VDict [ (py "id", VStr (py "paper-llm"));
                   (py "score", VFloat (FFinite false 7 (-3))) ];
           VDict [ (py "id", VStr (py "paper-eval")) ];
           VDict [ (py "id", VStr (py "paper-late"));
                   (py "score", VInt 1) ] ]) ].

(** UTF-8 under the strict error handler, the usual stdout: every Unicode
    scalar value, no surrogate. *)
Definition utf8 (c : codepoint) : bool :=
  ((c <? 55296) || ((57343 <? c) && (c <=? 1114111)))%N.

(** A response [json.loads] yields for an id written as a lone [\ud800]. *)
Definition response_lone_surrogate : value :=
  VDict
    [ (py "answer", VStr (py "Retrieval helps."));
      (py "citations",
       VList [ VDict [ (py "id", VStr [ 55296%N ]); (py "score", VInt 1) ] ]) ].

Definition fresh : Digest.world := {| Digest.stdout := []; Digest.sent := [] |}.

(** An embedder that counts characters, and a similarity that prefers
    texts of the length of the query. *)
Definition count_chars (text : pystr) : Z := Z.of_nat (length text).

Definition closeness (a b : Z) : Q := (- Z.abs (a - b)) # 1.

Definition paper_llm : Service.document :=
  {| Service.doc_id := py "paper-llm";
     Service.doc_text := py "retrieval augmented language models";
     Service.doc_metadata := {[ py "url" := py "https://papers.example.com/rag" ]} |}.

Definition paper_eval : Service.document :=
  {| Service.doc_id := py "paper-eval";
     Service.doc_text := py "evaluation metrics for agent coordination";
     Service.doc_metadata := {[ py "url" := py "https://papers.example.com/eval" ]} |}.

Definition empty_service : Service.state Z :=
  {| Service.store := ∅; Service.vindex := [] |}.

Definition two_papers : Service.state Z :=
  {| Service.store :=
       <[py "paper-eval" := paper_eval]> (<[py "paper-llm" := paper_llm]> ∅);
     Service.vindex :=
       [ (py "paper-llm", count_chars (py "retrieval augmented language models"));
         (py "paper-eval", count_chars (py "evaluation metrics for agent coordination")) ] |}.

End Samples.

(* ===================================================================== *)
(** * Properties of the runtime model                                     *)
(* ===================================================================== *)

Module PyProofs.
Import Py.

(** Induction on a value, with the hypothesis available for every item of a
    list and every member of a dictionary. *)
Section ValueInduction.

Variable P : value -> Prop.
Hypothesis HNone : P VNone.
Hypothesis HBool : forall b, P (VBool b).
Hypothesis HInt : forall z, P (VInt z).
Hypothesis HFloat : forall f, P (VFloat f).
Hypothesis HStr : forall s, P (VStr s).
Hypothesis HList : forall l, Forall P l -> P (VList l).
Hypothesis HDict : forall d, Forall (fun kv => P (snd kv)) d -> P (VDict d).
Hypothesis HObj : forall cls, P (VObj cls).

Fixpoint value_nested_ind (v : value) : P v :=
  match v with
  | VNone => HNone
  | VBool b => HBool b
  | VInt z => HInt z
  | VFloat f => HFloat f
  | VStr s => HStr s
  | VList l =>
      HList l
        ((fix items (l : list value) : Forall P l :=
            match l with
            | [] => List.Forall_nil P
            | x :: rest =>
                @List.Forall_cons _ P x rest (value_nested_ind x) (items rest)
            end) l)
  | VDict d =>
      HDict d
        ((fix members (d : list (pystr * value)) : Forall (fun kv => P (snd kv)) d :=
            match d with
            | [] => List.Forall_nil (fun kv => P (snd kv))
            | kv :: rest =>
                @List.Forall_cons _ (fun kv => P (snd kv)) kv rest
                  (value_nested_ind (snd kv)) (members rest)
            end) d)
  | VObj cls => HObj cls
  end.

End ValueInduction.

(** 0.125 and 0.875 lie halfway between two hundredths: the even one wins. *)
Example fixed2_ties_to_even :
  fixed2 (FFinite false 1 (-3)) = py "0.12" /\ fixed2 (FFinite false 7 (-3)) = py "0.88".
Proof. split; reflexivity. Qed.

Example fixed2_keeps_sign :
  fixed2 (FFinite true 1 (-10)) = py "-0.00" /\ fixed2 (FInf true) = py "-inf".
Proof. split; reflexivity. Qed.

Example float_of_int_rounds : float_of_int (2 ^ 53 + 3) = Ret (FFinite false (2 ^ 52 + 2) 1).
Proof. reflexivity. Qed.

Example float_of_int_overflows : float_of_int (10 ^ 400) = Raise OverflowError.
Proof. vm_compute. reflexivity. Qed.

(** A Latin letter, a line feed and a character beyond the basic plane. *)
Example encode_escapes :
  encode_basestring_ascii [ 233; 10; 128512 ]%N
  = quote ++ py "\u00e9\n\ud83d\ude00" ++ quote.
Proof. reflexivity. Qed.

Lemma dumps_all_total {A} (render : A -> result pystr) (ok : A -> bool) (l : list A) :
  Forall (fun x => ok x = true -> exists s, render x = Ret s) l ->
  forallb ok l = true -> exists ss, dumps_all render l = Ret ss.
Proof.
  intros H. induction H as [|x l Hx _ IH]; intros Hok; cbn.
  - eauto.
  - cbn in Hok. apply andb_prop in Hok as [Hokx Hokl].
    destruct (Hx Hokx) as [s ->]. destruct (IH Hokl) as [ss ->]. eauto.
Qed.

(** [json.dumps] returns on every serialisable value. *)
Lemma json_dumps_total (py_repr : value -> pystr) (v : value) :
  serialisable v = true -> exists s, json_dumps py_repr v = Ret s.
Proof.
  induction v as [| b | z | f | s | l IH | d IH | cls] using value_nested_ind;
    cbn [serialisable json_dumps]; intros Hok; try discriminate; eauto.
  - destruct b; eauto.
  - destruct f as [neg m e | [|] |]; eauto.
  - destruct (dumps_all_total (json_dumps py_repr) serialisable l IH Hok) as [ss ->].
    eauto.
  - assert (Hd : exists ss,
               dumps_all
                 (fun kv =>
                    let (k, x) := kv : pystr * value in
                    match json_dumps py_repr x with
                    | Raise e => Raise e
                    | Ret s => Ret (encode_basestring_ascii k ++ py ": " ++ s)
                    end) d = Ret ss).
    { apply (dumps_all_total _
               (fun kv => let (_, x) := kv : pystr * value in serialisable x));
        [|exact Hok].
      eapply Forall_impl; [exact IH|].
      intros [k x] Hx Hokx. cbn in Hx. destruct (Hx Hokx) as [s ->]. eauto. }
    destruct Hd as [ss ->]. eauto.
Qed.

Lemma dumps_all_raises {A} (render : A -> result pystr) (l : list A) (e : exn) :
  Forall (fun x => forall e, render x = Raise e -> e = TypeError) l ->
  dumps_all render l = Raise e -> e = TypeError.
Proof.
  intros H. induction H as [|x l Hx _ IH]; cbn; [discriminate|].
  destruct (render x) as [s|e'] eqn:Hr.
  - destruct (dumps_all render l) as [ss|e'']; [discriminate|].
    intros Heq. apply IH. congruence.
  - intros Heq. apply Hx. congruence.
Qed.

(** The only exception [json.dumps] raises on these values is [TypeError]. *)
Lemma json_dumps_raises (py_repr : value -> pystr) (v : value) (e : exn) :
  json_dumps py_repr v = Raise e -> e = TypeError.
Proof.
  revert e.
  induction v as [| b | z | f | s | l IH | d IH | cls] using value_nested_ind;
    cbn [json_dumps]; intros e; try discriminate.
  - destruct b; discriminate.
  - destruct f as [neg m x | [|] |]; discriminate.
  - destruct (dumps_all (json_dumps py_repr) l) as [ss|e'] eqn:Hl; [discriminate|].
    intros Heq. apply (dumps_all_raises _ l e' IH) in Hl. congruence.
  - match goal with
    | |- context [dumps_all ?r d] =>
        destruct (dumps_all r d) as [ss|e'] eqn:Hd; [discriminate|]
    end.
    intros Heq. apply dumps_all_raises in Hd; [congruence|].
    eapply Forall_impl; [exact IH|].
    intros [k x] Hx e0. cbn in Hx.
    destruct (json_dumps py_repr x) as [s|e1] eqn:Hjx; [discriminate|].
    intros Heq0. rewrite <- (Hx e1 eq_refl). congruence.
  - congruence.
Qed.

Lemma dumps_all_accepts {A} (render : A -> result pystr) (ok : A -> bool)
    (l : list A) (ss : list pystr) :
  Forall (fun x => forall s, render x = Ret s -> ok x = true) l ->
  dumps_all render l = Ret ss -> forallb ok l = true.
Proof.
  intros H. revert ss. induction H as [|x l Hx _ IH]; intros ss; cbn; [reflexivity|].
  destruct (render x) as [s|e] eqn:Hr; [|discriminate].
  destruct (dumps_all render l) as [ss'|e]; [|discriminate].
  intros _. rewrite (Hx s eq_refl), (IH ss' eq_refl). reflexivity.
Qed.

(** [json.dumps] returns on serialisable values only. *)
Lemma json_dumps_accepts (py_repr : value -> pystr) (v : value) (s : pystr) :
  json_dumps py_repr v = Ret s -> serialisable v = true.
Proof.
  revert s.
  induction v as [| b | z | f | t | l IH | d IH | cls] using value_nested_ind;
    cbn [serialisable json_dumps]; intros s; try reflexivity; try discriminate.
  - destruct (dumps_all (json_dumps py_repr) l) as [ss|e] eqn:Hl; [|discriminate].
    intros _. exact (dumps_all_accepts _ _ l ss IH Hl).
  - match goal with
    | |- context [dumps_all ?r d] => destruct (dumps_all r d) as [ss|e] eqn:Hd
    end; [|discriminate].
    intros _. eapply dumps_all_accepts; [|exact Hd].
    eapply Forall_impl; [exact IH|].
    intros [k x] Hx s0. cbn in Hx.
    destruct (json_dumps py_repr x) as [sx|e] eqn:Hjx; [|discriminate].
    intros _. exact (Hx sx eq_refl).
Qed.

(** On anything else it raises [TypeError]. *)
Lemma json_dumps_rejects (py_repr : value -> pystr) (v : value) :
  serialisable v = false -> json_dumps py_repr v = Raise TypeError.
Proof.
  intros Hno. destruct (json_dumps py_repr v) as [s|e] eqn:Hv.
  - apply json_dumps_accepts in Hv. congruence.
  - apply json_dumps_raises in Hv. congruence.
Qed.

(** A modest value is serialisable. *)
Lemma modest_serialisable (depth : nat) (v : value) :
  modest depth v = true -> serialisable v = true.
Proof.
  revert v. induction depth as [|depth IH]; intros v;
    destruct v as [| b | z | f | s | l | d | cls]; cbn [modest serialisable];
    try reflexivity; try discriminate; intros H.
  - induction l as [|x l IHl]; [reflexivity|].
    cbn in *. apply andb_prop in H as [Hx Hl].
    rewrite (IH x Hx), (IHl Hl). reflexivity.
  - induction d as [|[k x] d IHd]; [reflexivity|].
    cbn in *. apply andb_prop in H as [Hx Hd].
    rewrite (IH x Hx), (IHd Hd). reflexivity.
Qed.



(** ** The text [json.dumps] writes is printable ASCII *)

Lemma printable_app (s t : pystr) : printable s -> printable t -> printable (s ++ t).
Proof. unfold printable. intros Hs Ht. apply Forall_app. split; assumption. Qed.

Lemma printable_digits (d : Decimal.uint) :
  printable (py (NilEmpty.string_of_uint d)).
Proof.
  unfold printable.
  induction d as [|d IH|d IH|d IH|d IH|d IH|d IH|d IH|d IH|d IH|d IH]; cbn;
    [constructor|..]; (constructor; [cbn; lia | exact IH]).
Qed.

Lemma printable_py_digits (d : Decimal.uint) :
  printable (py (NilZero.string_of_uint d)).
Proof.
  destruct d; try apply printable_digits.
  unfold printable. repeat constructor; cbn; lia.
Qed.

Lemma printable_decimal (z : Z) : printable (decimal z).
Proof.
  unfold decimal, decimal_N.
  destruct (z <? 0); [apply printable_app|]; try apply printable_py_digits.
  repeat constructor; cbn; lia.
Qed.

Lemma printable_hex_digit (n : N) : (n < 16)%N -> (32 <= hex_digit n <= 126)%N.
Proof.
  intros Hn. unfold hex_digit. destruct (n <? 10)%N eqn:H10.
  - apply N.ltb_lt in H10. lia.
  - apply N.ltb_ge in H10. lia.
Qed.

Lemma printable_hex4 (n : N) : printable (hex4 n).
Proof.
  unfold hex4, printable.
  repeat constructor; apply printable_hex_digit, N.mod_lt; discriminate.
Qed.

Lemma printable_escape_char (c : codepoint) : printable (escape_char c).
Proof.
  unfold escape_char.
  repeat match goal with
         | |- printable (if ?b then _ else _) => destruct b eqn:?
         end;
    try (repeat constructor; cbn; lia).
  - apply andb_prop in Heqb6 as [Hlo Hhi].
    apply N.leb_le in Hlo, Hhi. repeat constructor; lia.
  - apply printable_app; [repeat constructor; cbn; lia | apply printable_hex4].
  - cbn zeta. repeat apply printable_app; try apply printable_hex4;
      repeat constructor; cbn; lia.
Qed.

Lemma printable_encode (s : pystr) : printable (encode_basestring_ascii s).
Proof.
  unfold encode_basestring_ascii, quote.
  apply printable_app; [repeat constructor; lia|].
  apply printable_app; [|repeat constructor; lia].
  induction s as [|c s IH]; cbn; [constructor|].
  apply printable_app; [apply printable_escape_char | exact IH].
Qed.

Lemma printable_join (sep : pystr) (parts : list pystr) :
  printable sep -> Forall printable parts -> printable (join sep parts).
Proof.
  intros Hsep H. induction H as [|p parts Hp Hparts IH]; cbn; [constructor|].
  destruct parts as [|q parts]; [exact Hp|].
  apply printable_app; [exact Hp|]. apply printable_app; [exact Hsep | exact IH].
Qed.

Lemma printable_dumps_all {A} (render : A -> result pystr) (l : list A)
    (ss : list pystr) :
  Forall (fun x => forall s, render x = Ret s -> printable s) l ->
  dumps_all render l = Ret ss -> Forall printable ss.
Proof.
  intros H. revert ss. induction H as [|x l Hx _ IH]; intros ss; cbn.
  - intros Heq. inversion Heq. constructor.
  - destruct (render x) as [s|e] eqn:Hr; [|discriminate].
    destruct (dumps_all render l) as [ss'|e]; [|discriminate].
    intros Heq. inversion Heq. constructor; [apply Hx; reflexivity | apply IH; reflexivity].
Qed.

Lemma Ret_inj {A} (a b : A) : Ret a = Ret b -> a = b.
Proof. congruence. Qed.

Lemma printable_digit (n : N) : (n < 10)%N -> (32 <= digit n <= 126)%N.
Proof. unfold digit. lia. Qed.

Lemma printable_sign (neg : bool) : printable (sign neg).
Proof. destruct neg; repeat constructor; cbn; lia. Qed.

(** Two decimals of a float are digits, a point and a sign, or inf, nan. *)
Lemma printable_fixed2 (f : float64) : printable (fixed2 f).
Proof.
  destruct f as [neg m e | neg |]; cbn [fixed2].
  - apply printable_app; [apply printable_sign|].
    apply printable_app; [apply printable_py_digits|].
    apply printable_app; [repeat constructor; cbn; lia|].
    repeat constructor; apply printable_digit; apply N.mod_lt; discriminate.
  - apply printable_app; [apply printable_sign|]. repeat constructor; cbn; lia.
  - repeat constructor; cbn; lia.
Qed.

Lemma printable_format_2f (v : value) (s : pystr) :
  format_2f v = Ret s -> printable s.
Proof.
  destruct v; cbn [format_2f]; try discriminate.
  - intros H. apply Ret_inj in H. subst s. apply printable_fixed2.
  - destruct (float_of_int z); [|discriminate].
    intros H. apply Ret_inj in H. subst s. apply printable_fixed2.
  - intros H. apply Ret_inj in H. subst s. apply printable_fixed2.
Qed.

Lemma printable_py_ascii (s : string) :
  forallb (fun c => (32 <=? c)%N && (c <=? 126)%N) (py s) = true -> printable (py s).
Proof.
  unfold printable. intros H. apply Forall_forall. intros c Hc.
  rewrite forallb_forall in H. apply list_elem_of_In, H in Hc.
  apply andb_prop in Hc as [Hlo Hhi]. apply N.leb_le in Hlo, Hhi. lia.
Qed.

(** Whatever the strings inside a value hold, its JSON text is printable
    ASCII, provided [repr] of a float is. *)
Lemma printable_json_dumps (py_repr : value -> pystr) (v : value) (s : pystr) :
  (forall f, printable (py_repr (VFloat f))) ->
  json_dumps py_repr v = Ret s -> printable s.
Proof.
  intros Hrepr. revert s.
  induction v as [| b | z | f | t | l IH | d IH | cls] using value_nested_ind;
    cbn [json_dumps]; intros s Heq.
  - apply Ret_inj in Heq. subst s. apply printable_py_ascii. reflexivity.
  - destruct b; apply Ret_inj in Heq; subst s; apply printable_py_ascii; reflexivity.
  - apply Ret_inj in Heq. subst s. apply printable_decimal.
  - destruct f as [neg m e | [|] |]; apply Ret_inj in Heq; subst s;
      try apply Hrepr; apply printable_py_ascii; reflexivity.
  - apply Ret_inj in Heq. subst s. apply printable_encode.
  - destruct (dumps_all (json_dumps py_repr) l) as [ss|e] eqn:Hl; [|discriminate].
    apply Ret_inj in Heq. subst s.
    apply printable_app; [apply printable_py_ascii; reflexivity|].
    apply printable_app; [|apply printable_py_ascii; reflexivity].
    apply printable_join; [apply printable_py_ascii; reflexivity|].
    exact (printable_dumps_all _ l ss IH Hl).
  - match type of Heq with
    | context [dumps_all ?r d] => destruct (dumps_all r d) as [ss|e] eqn:Hd
    end; [|discriminate].
    apply Ret_inj in Heq. subst s.
    apply printable_app; [apply printable_py_ascii; reflexivity|].
    apply printable_app; [|apply printable_py_ascii; reflexivity].
    apply printable_join; [apply printable_py_ascii; reflexivity|].
    eapply printable_dumps_all; [|exact Hd].
    eapply Forall_impl; [exact IH|].
    intros [k x] Hx s0. cbn in Hx.
    destruct (json_dumps py_repr x) as [sx|e] eqn:Hjx; [|discriminate].
    intros Heq0. apply Ret_inj in Heq0. subst s0.
    apply printable_app; [apply printable_encode|].
    apply printable_app; [apply printable_py_ascii; reflexivity | exact (Hx sx eq_refl)].
  - discriminate.
Qed.

End PyProofs.

(* ===================================================================== *)
(** * Properties of the extraction filter                                 *)
(* ===================================================================== *)

Module ExtractProofs.
Import Py Extract.

Ltac run_script :=
  unfold run, script, main, print_json, try_except, bind, lift, stdin_read,
    call_extract, call_bare_extraction, print, sys_exit, raise, ret, log_call;
  cbn [stdin stdout calls truthy negb].

Section Facts.

Variable py_repr : value -> pystr.

Lemma dumps_empty_dict : json_dumps py_repr (VDict []) = Ret (py "{}").
Proof. reflexivity. Qed.

Lemma main_name_eqb : str_eqb (py "__main__") (py "__main__") = true.
Proof. reflexivity. Qed.

(** C10: on empty input the filter prints [{}] and makes no call into the
    extraction library. *)
Theorem empty_input_emits_empty_object (lib : trafilatura) (w : world) :
  stdin w = [] ->
  run py_repr (Imported lib) (py "__main__") w
    = (Exit 0, {| stdin := []; stdout := stdout w ++ py "{}" ++ newline;
                  calls := calls w |}).
Proof.
  intros Hin. run_script. rewrite main_name_eqb, Hin. reflexivity.
Qed.

(** C9: when [import trafilatura] raises, the filter prints [{}] and exits
    with status 0, whatever is on stdin. *)
Theorem import_failure_emits_empty_object (e : exn) (name : pystr) (w : world) :
  is_Exception e = true ->
  run py_repr (ImportRaises e) name w
    = (Exit 0, {| stdin := stdin w; stdout := stdout w ++ py "{}" ++ newline;
                  calls := calls w |}).
Proof.
  intros He. run_script. rewrite He. reflexivity.
Qed.

(** C1: when [trafilatura.extract] returns [None] or raises, the filter
    prints exactly [{}] and ends normally. *)
Theorem extraction_failure_emits_empty_object (lib : trafilatura) (w : world) :
  (extract lib (stdin w) = Ret VNone
   \/ exists e, extract lib (stdin w) = Raise e /\ is_Exception e = true) ->
  exists w',
    run py_repr (Imported lib) (py "__main__") w = (Exit 0, w')
    /\ stdout w' = stdout w ++ py "{}" ++ newline.
Proof.
  intros Hfail. run_script. rewrite main_name_eqb.
  destruct (stdin w) as [|c html] eqn:Hin.
  - eexists. split; reflexivity.
  - destruct Hfail as [Hnone | (e & Hraise & He)].
    + rewrite Hnone. eexists. split; reflexivity.
    + rewrite Hraise, He. eexists. split; reflexivity.
Qed.

(** When the metadata step raises after [extract] succeeded, the handler
    prints [{}] as well. *)
Lemma metadata_failure_emits_empty_object
    (lib : trafilatura) (w : world) (downloaded : value) (e : exn) :
  stdin w <> [] ->
  extract lib (stdin w) = Ret downloaded -> downloaded <> VNone ->
  bare_extraction lib (stdin w) = Raise e -> is_Exception e = true ->
  exists w',
    run py_repr (Imported lib) (py "__main__") w = (Exit 0, w')
    /\ stdout w' = stdout w ++ py "{}" ++ newline.
Proof.
  intros Hin Hx Hd Hb He. run_script. rewrite main_name_eqb.
  destruct (stdin w) as [|c html] eqn:Hw; [congruence|].
  rewrite Hx. destruct downloaded; try congruence;
    rewrite Hb, He; eexists; split; reflexivity.
Qed.

(** The text [json.dumps] gives for the dictionary of lines 25-31. *)
Lemma dumps_out_dict
    (title_v downloaded author_v date_v language_v : value)
    (title text author date language : pystr) :
  json_dumps py_repr title_v = Ret title ->
  json_dumps py_repr downloaded = Ret text ->
  json_dumps py_repr author_v = Ret author ->
  json_dumps py_repr date_v = Ret date ->
  json_dumps py_repr language_v = Ret language ->
  json_dumps py_repr (out_dict title_v downloaded author_v date_v language_v)
  = Ret (record_text title text author date language).
Proof.
  intros Ht Hx Ha Hd Hl. unfold out_dict. cbn [json_dumps dumps_all].
  rewrite Ht, Hx, Ha, Hd, Hl. cbn [join]. f_equal.
  unfold record_text, member_key, encode_basestring_ascii.
  repeat rewrite <- app_assoc. reflexivity.
Qed.

(** What the run does once both library calls have returned and the
    metadata is a dictionary. *)
Lemma run_with_metadata
    (lib : trafilatura) (w : world) (downloaded extracted : value)
    (meta : list (pystr * value)) :
  stdin w <> [] ->
  extract lib (stdin w) = Ret downloaded -> downloaded <> VNone ->
  bare_extraction lib (stdin w) = Ret extracted ->
  py_or extracted (VDict []) = VDict meta ->
  run py_repr (Imported lib) (py "__main__") w
  = let called :=
      {| stdin := [];
         stdout := stdout w;
         calls := (calls w ++ [ CallExtract (stdin w) ])
                    ++ [ CallBareExtraction (stdin w) ] |} in
    match json_dumps py_repr
            (out_dict (meta_get meta (py "title")) downloaded
               (meta_get meta (py "author")) (meta_get meta (py "date"))
               (meta_get meta (py "lang"))) with
    | Ret s => (Exit 0, {| stdin := []; stdout := stdout w ++ s ++ newline;
                           calls := calls called |})
    | Raise e =>
        if is_Exception e
        then (Exit 0, {| stdin := []; stdout := stdout w ++ py "{}" ++ newline;
                         calls := calls called |})
        else (outcome_of (Raise e), called)
    end.
Proof.
  intros Hin Hx Hnone Hb Hmeta. run_script. rewrite main_name_eqb.
  destruct (stdin w) as [|c html] eqn:Hw; [congruence|].
  rewrite Hx.
  destruct downloaded; try congruence;
    rewrite Hb, Hmeta; unfold get;
    fold (meta_get meta (py "title")) (meta_get meta (py "author"))
      (meta_get meta (py "date")) (meta_get meta (py "lang"));
    rewrite ?dumps_empty_dict; cbn zeta;
    (destruct (json_dumps py_repr (out_dict _ _ _ _ _)) as [rendered|e];
     [reflexivity|]; destruct (is_Exception e); reflexivity).
Qed.


(** ** The run, case by case *)

Lemma run_empty_stdin (lib : trafilatura) (w : world) :
  stdin w = [] ->
  run py_repr (Imported lib) (py "__main__") w
  = (Exit 0, {| stdin := []; stdout := stdout w ++ py "{}" ++ newline;
                calls := calls w |}).
Proof.
  intros Hin. run_script. rewrite main_name_eqb, Hin. reflexivity.
Qed.

Lemma run_extract_raises (lib : trafilatura) (w : world) (e : exn) :
  stdin w <> [] -> extract lib (stdin w) = Raise e ->
  run py_repr (Imported lib) (py "__main__") w
  = if is_Exception e
    then (Exit 0, after_calls w false (py "{}" ++ newline))
    else (outcome_of (Raise e), after_calls w false []).
Proof.
  intros Hin Hx. run_script. rewrite main_name_eqb.
  destruct (stdin w) as [|c html] eqn:Hw; [congruence|].
  rewrite Hx. unfold after_calls. rewrite Hw, app_nil_r.
  destruct (is_Exception e); reflexivity.
Qed.

Lemma run_extract_none (lib : trafilatura) (w : world) :
  stdin w <> [] -> extract lib (stdin w) = Ret VNone ->
  run py_repr (Imported lib) (py "__main__") w
  = (Exit 0, after_calls w false (py "{}" ++ newline)).
Proof.
  intros Hin Hx. run_script. rewrite main_name_eqb.
  destruct (stdin w) as [|c html] eqn:Hw; [congruence|].
  rewrite Hx. unfold after_calls. rewrite Hw. reflexivity.
Qed.

Lemma run_bare_extraction_raises
    (lib : trafilatura) (w : world) (downloaded : value) (e : exn) :
  stdin w <> [] ->
  extract lib (stdin w) = Ret downloaded -> downloaded <> VNone ->
  bare_extraction lib (stdin w) = Raise e ->
  run py_repr (Imported lib) (py "__main__") w
  = if is_Exception e
    then (Exit 0, after_calls w true (py "{}" ++ newline))
    else (outcome_of (Raise e), after_calls w true []).
Proof.
  intros Hin Hx Hnone Hb. run_script. rewrite main_name_eqb.
  destruct (stdin w) as [|c html] eqn:Hw; [congruence|].
  rewrite Hx. unfold after_calls. rewrite Hw, app_nil_r.
  destruct downloaded; try congruence; rewrite Hb;
    destruct (is_Exception e); cbn; rewrite <- ?app_assoc; reflexivity.
Qed.

(** [meta.get] on anything but a dictionary raises [AttributeError]. *)
Lemma run_metadata_not_dict
    (lib : trafilatura) (w : world) (downloaded extracted : value) :
  stdin w <> [] ->
  extract lib (stdin w) = Ret downloaded -> downloaded <> VNone ->
  bare_extraction lib (stdin w) = Ret extracted ->
  (forall meta, py_or extracted (VDict []) <> VDict meta) ->
  run py_repr (Imported lib) (py "__main__") w
  = (Exit 0, after_calls w true (py "{}" ++ newline)).
Proof.
  intros Hin Hx Hnone Hb Hmeta. run_script. rewrite main_name_eqb.
  destruct (stdin w) as [|c html] eqn:Hw; [congruence|].
  rewrite Hx. unfold after_calls. rewrite Hw.
  destruct downloaded; try congruence; rewrite Hb;
    (destruct (py_or extracted (VDict [])) as [| | | | | |meta|] eqn:Hor;
     [| | | | | |exfalso; exact (Hmeta meta eq_refl)|]);
    cbn; rewrite <- ?app_assoc; reflexivity.
Qed.

(** A value is [None] or it is not. *)
Lemma none_or_not (v : value) : v = VNone \/ v <> VNone.
Proof. destruct v; (left; reflexivity) || (right; discriminate). Qed.

Lemma dict_or_not (v : value) : (exists d, v = VDict d) \/ (forall d, v <> VDict d).
Proof. destruct v; (left; eexists; reflexivity) || (right; discriminate). Qed.

(** The whole contract: whatever the library does, short of raising past
    [Exception], the filter ends normally having printed either [{}] or one
    object with the five keys. *)
Lemma filter_emits_record_or_empty (lib : trafilatura) (w : world) :
  (forall e, extract lib (stdin w) = Raise e -> is_Exception e = true) ->
  (forall e, bare_extraction lib (stdin w) = Raise e -> is_Exception e = true) ->
  exists w',
    run py_repr (Imported lib) (py "__main__") w = (Exit 0, w')
    /\ (stdout w' = stdout w ++ py "{}" ++ newline
        \/ exists out s,
             json_dumps py_repr (VDict out) = Ret s
             /\ dict_keys out
                = [ py "title"; py "text"; py "author"; py "date"; py "language" ]
             /\ stdout w' = stdout w ++ s ++ newline).
Proof.
  intros Hxe Hbe.
  destruct (stdin w) as [|c html] eqn:Hw.
  { eexists. split; [apply run_empty_stdin, Hw|]. left. reflexivity. }
  assert (Hin : stdin w <> []) by (rewrite Hw; discriminate).
  rewrite <- Hw in *.
  destruct (extract lib (stdin w)) as [downloaded|e] eqn:Hx.
  2:{ rewrite (run_extract_raises lib w e Hin Hx), (Hxe e eq_refl).
      eexists. split; [reflexivity|]. left. reflexivity. }
  destruct (none_or_not downloaded) as [-> | Hnone].
  { rewrite (run_extract_none lib w Hin Hx).
    eexists. split; [reflexivity|]. left. reflexivity. }
  destruct (bare_extraction lib (stdin w)) as [extracted|e] eqn:Hb.
  2:{ rewrite (run_bare_extraction_raises lib w downloaded e Hin Hx Hnone Hb),
        (Hbe e eq_refl).
      eexists. split; [reflexivity|]. left. reflexivity. }
  destruct (dict_or_not (py_or extracted (VDict []))) as [[meta Hmeta] | Hmeta].
  - rewrite (run_with_metadata lib w downloaded extracted meta Hin Hx Hnone Hb Hmeta).
    cbn zeta.
    destruct (json_dumps py_repr _) as [s|e] eqn:Hs.
    + eexists. split; [reflexivity|]. right. eexists. exists s.
      split; [exact Hs|]. split; reflexivity.
    + rewrite (PyProofs.json_dumps_raises _ _ _ Hs). cbn.
      eexists. split; [reflexivity|]. left. reflexivity.
  - rewrite (run_metadata_not_dict lib w downloaded extracted Hin Hx Hnone Hb Hmeta).
    eexists. split; [reflexivity|]. left. reflexivity.
Qed.

End Facts.

Import Samples.

Lemma empty_input_witness :
  stdin (piped []) = []
  /\ run sample_repr (Imported lib_ok) (py "__main__") (piped [])
     = (Exit 0, {| stdin := []; stdout := py "{}" ++ newline; calls := [] |}).
Proof.
  split; [reflexivity|].
  apply (empty_input_emits_empty_object sample_repr lib_ok (piped [])).
  reflexivity.
Defined.

Lemma import_failure_witness :
  is_Exception (Error "ModuleNotFoundError") = true
  /\ run sample_repr (ImportRaises (Error "ModuleNotFoundError")) (py "__main__")
       (piped page)
     = (Exit 0, {| stdin := page; stdout := py "{}" ++ newline; calls := [] |}).
Proof.
  split; [reflexivity|].
  apply (import_failure_emits_empty_object sample_repr
           (Error "ModuleNotFoundError") (py "__main__") (piped page)).
  reflexivity.
Defined.

Lemma extraction_failure_witness :
  (exists e, extract lib_raising (stdin (piped page)) = Raise e
             /\ is_Exception e = true)
  /\ exists w',
       run sample_repr (Imported lib_raising) (py "__main__") (piped page)
       = (Exit 0, w')
       /\ stdout w' = py "{}" ++ newline.
Proof.
  assert (H : exists e, extract lib_raising (stdin (piped page)) = Raise e
                        /\ is_Exception e = true).
  { exists ValueError. split; reflexivity. }
  split; [exact H|].
  apply (extraction_failure_emits_empty_object sample_repr lib_raising (piped page)).
  right. exact H.
Defined.

(** The run on a page the library handles. *)
Example run_on_page :
  run sample_repr (Imported lib_ok) (py "__main__") (piped page)
  = (Exit 0,
     {| stdin := [];
        stdout :=
          record_text (quote ++ py "Greeting" ++ quote) (quote ++ py "Hello" ++ quote)
            (py "null") (py "null") (quote ++ py "en" ++ quote)
          ++ newline;
        calls := [ CallExtract page; CallBareExtraction page ] |}).
Proof. vm_compute. reflexivity. Qed.


(** The run the claim as stated leaves out. *)
Example run_when_metadata_raises :
  extract lib_metadata_raises (stdin (piped page)) = Ret (VStr (py "Hello"))
  /\ run sample_repr (Imported lib_metadata_raises) (py "__main__") (piped page)
     = (Exit 0,
        {| stdin := [];
           stdout := py "{}" ++ newline;
           calls := [ CallExtract page; CallBareExtraction page ] |}).
Proof. split; vm_compute; reflexivity. Qed.


End ExtractProofs.

(* ===================================================================== *)
(** * The extraction filter, case by case                                 *)
(* ===================================================================== *)

Module ExtractCoverage.
Import Py Extract ExtractProofs.

Section Cases.

Variable py_repr : value -> pystr.

(** X1: for every input text, whatever the library returns or raises on it,
    short of raising past [Exception], the filter reads the text to its end,
    writes exactly one line and ends with status 0; the line is [{}] or the
    JSON text of an object with the five keys title, text, author, date,
    language. *)
Theorem filter_always_answers (lib : trafilatura) (w : world) :
  (forall e, extract lib (stdin w) = Raise e -> is_Exception e = true) ->
  (forall e, bare_extraction lib (stdin w) = Raise e -> is_Exception e = true) ->
  exists w' line,
    run py_repr (Imported lib) (py "__main__") w = (Exit 0, w')
    /\ stdin w' = []
    /\ stdout w' = stdout w ++ line ++ newline
    /\ (line = py "{}"
        \/ exists out,
             json_dumps py_repr (VDict out) = Ret line
             /\ dict_keys out
                = [ py "title"; py "text"; py "author"; py "date"; py "language" ]).
Proof.
  intros Hxe Hbe.
  destruct (stdin w) as [|c html] eqn:Hw.
  { rewrite (run_empty_stdin py_repr lib w Hw).
    eexists. exists (py "{}"). repeat split; auto. }
  assert (Hin : stdin w <> []) by (rewrite Hw; discriminate).
  rewrite <- Hw in *.
  destruct (extract lib (stdin w)) as [downloaded|e] eqn:Hx.
  2:{ rewrite (run_extract_raises py_repr lib w e Hin Hx), (Hxe e eq_refl).
      eexists. exists (py "{}"). repeat split; auto. }
  destruct (none_or_not downloaded) as [-> | Hnone].
  { rewrite (run_extract_none py_repr lib w Hin Hx).
    eexists. exists (py "{}"). repeat split; auto. }
  destruct (bare_extraction lib (stdin w)) as [extracted|e] eqn:Hb.
  2:{ rewrite (run_bare_extraction_raises py_repr lib w downloaded e Hin Hx Hnone Hb),
        (Hbe e eq_refl).
      eexists. exists (py "{}"). repeat split; auto. }
  destruct (dict_or_not (py_or extracted (VDict []))) as [[meta Hmeta] | Hmeta].
  - rewrite (run_with_metadata py_repr lib w downloaded extracted meta
               Hin Hx Hnone Hb Hmeta).
    cbn zeta.
    destruct (json_dumps py_repr _) as [s|e] eqn:Hs.
    + eexists. exists s. split; [reflexivity|]. split; [reflexivity|].
      split; [reflexivity|]. right. eexists. split; [exact Hs | reflexivity].
    + rewrite (PyProofs.json_dumps_raises _ _ _ Hs). cbn.
      eexists. exists (py "{}"). repeat split; auto.
  - rewrite (run_metadata_not_dict py_repr lib w downloaded extracted
               Hin Hx Hnone Hb Hmeta).
    eexists. exists (py "{}"). repeat split; auto.
Qed.

(** X2: an exception that is not an [Exception] ([KeyboardInterrupt],
    [SystemExit]) raised by either library call is not caught: it ends the
    run and nothing is written to stdout. *)
Theorem interrupt_is_not_swallowed (lib : trafilatura) (w : world) (e : exn) :
  stdin w <> [] -> is_Exception e = false ->
  (extract lib (stdin w) = Raise e
   \/ exists downloaded,
        extract lib (stdin w) = Ret downloaded /\ downloaded <> VNone
        /\ bare_extraction lib (stdin w) = Raise e) ->
  exists w',
    run py_repr (Imported lib) (py "__main__") w = (outcome_of (Raise e), w')
    /\ stdout w' = stdout w.
Proof.
  intros Hin He [Hx | (downloaded & Hx & Hnone & Hb)].
  - rewrite (run_extract_raises py_repr lib w e Hin Hx), He.
    eexists. split; [reflexivity|]. cbn. apply app_nil_r.
  - rewrite (run_bare_extraction_raises py_repr lib w downloaded e Hin Hx Hnone Hb), He.
    eexists. split; [reflexivity|]. cbn. apply app_nil_r.
Qed.

(** X3: when [bare_extraction] raises after [extract] has returned the
    text, the text is dropped: the one line written is [{}]. *)
Theorem metadata_exception_drops_text
    (lib : trafilatura) (w : world) (downloaded : value) (e : exn) :
  stdin w <> [] ->
  extract lib (stdin w) = Ret downloaded -> downloaded <> VNone ->
  bare_extraction lib (stdin w) = Raise e -> is_Exception e = true ->
  run py_repr (Imported lib) (py "__main__") w
  = (Exit 0, after_calls w true (py "{}" ++ newline)).
Proof.
  intros Hin Hx Hnone Hb He.
  rewrite (run_bare_extraction_raises py_repr lib w downloaded e Hin Hx Hnone Hb), He.
  reflexivity.
Qed.

(** X4: when [bare_extraction] returns something true that is not a
    dictionary (an object, a string, a list, a number), [meta.get] raises and
    the text is dropped: the one line written is [{}]. *)
Theorem metadata_object_drops_text
    (lib : trafilatura) (w : world) (downloaded extracted : value) :
  stdin w <> [] ->
  extract lib (stdin w) = Ret downloaded -> downloaded <> VNone ->
  bare_extraction lib (stdin w) = Ret extracted ->
  truthy extracted = true -> (forall d, extracted <> VDict d) ->
  run py_repr (Imported lib) (py "__main__") w
  = (Exit 0, after_calls w true (py "{}" ++ newline)).
Proof.
  intros Hin Hx Hnone Hb Htrue Hobj.
  apply (run_metadata_not_dict py_repr lib w downloaded extracted Hin Hx Hnone Hb).
  intros meta. unfold py_or. rewrite Htrue. apply Hobj.
Qed.

(** X5: when the text or a metadata field is a value [json.dumps] rejects,
    nothing of the object is written: the one line written is [{}]. *)
Theorem unserialisable_field_drops_text
    (lib : trafilatura) (w : world) (downloaded extracted : value)
    (meta : list (pystr * value)) :
  stdin w <> [] ->
  extract lib (stdin w) = Ret downloaded -> downloaded <> VNone ->
  bare_extraction lib (stdin w) = Ret extracted ->
  py_or extracted (VDict []) = VDict meta ->
  serialisable downloaded
  && serialisable (meta_get meta (py "title"))
  && serialisable (meta_get meta (py "author"))
  && serialisable (meta_get meta (py "date"))
  && serialisable (meta_get meta (py "lang")) = false ->
  run py_repr (Imported lib) (py "__main__") w
  = (Exit 0, after_calls w true (py "{}" ++ newline)).
Proof.
  intros Hin Hx Hnone Hb Hmeta Hno.
  rewrite (run_with_metadata py_repr lib w downloaded extracted meta
             Hin Hx Hnone Hb Hmeta).
  cbn zeta. rewrite PyProofs.json_dumps_rejects;
    [cbn; unfold after_calls; rewrite <- app_assoc; reflexivity|].
  cbn [out_dict serialisable forallb].
  destruct (serialisable downloaded), (serialisable (meta_get meta (py "title"))),
    (serialisable (meta_get meta (py "author"))),
    (serialisable (meta_get meta (py "date"))),
    (serialisable (meta_get meta (py "lang"))); cbn in *; congruence.
Qed.

(** X6: when [bare_extraction] returns [None] (or any false value), the
    object is still written, with the text and [null] under title, author,
    date and language. *)
Theorem missing_metadata_gives_nulls
    (lib : trafilatura) (w : world) (text : pystr) (extracted : value) :
  stdin w <> [] ->
  extract lib (stdin w) = Ret (VStr text) ->
  bare_extraction lib (stdin w) = Ret extracted ->
  truthy extracted = false ->
  run py_repr (Imported lib) (py "__main__") w
  = (Exit 0,
     after_calls w true
       (record_text (py "null") (encode_basestring_ascii text) (py "null")
          (py "null") (py "null") ++ newline)).
Proof.
  intros Hin Hx Hb Hfalse.
  assert (Hmeta : py_or extracted (VDict []) = VDict [])
    by (unfold py_or; rewrite Hfalse; reflexivity).
  rewrite (run_with_metadata py_repr lib w (VStr text) extracted []
             Hin Hx ltac:(discriminate) Hb Hmeta).
  cbn zeta. unfold meta_get. cbn [dict_lookup].
  rewrite (dumps_out_dict py_repr VNone (VStr text) VNone VNone VNone
             (py "null") (encode_basestring_ascii text) (py "null") (py "null")
             (py "null") eq_refl eq_refl eq_refl eq_refl eq_refl).
  cbn [calls]. unfold after_calls. rewrite <- app_assoc. reflexivity.
Qed.

(** X7: the calls into the library, for every library and input text: none
    on the empty text; otherwise [extract] once on the whole text, followed
    by [bare_extraction] once on the same text exactly when [extract]
    returned something other than [None]. *)
Theorem library_calls (lib : trafilatura) (w : world) :
  calls (snd (run py_repr (Imported lib) (py "__main__") w))
  = calls w
      ++ match stdin w with
         | [] => []
         | _ :: _ =>
             CallExtract (stdin w)
               :: match extract lib (stdin w) with
                  | Raise _ | Ret VNone => []
                  | Ret _ => [ CallBareExtraction (stdin w) ]
                  end
         end.
Proof.
  destruct (stdin w) as [|c html] eqn:Hw.
  { rewrite (run_empty_stdin py_repr lib w Hw). cbn. symmetry. apply app_nil_r. }
  assert (Hin : stdin w <> []) by (rewrite Hw; discriminate).
  rewrite <- Hw in *.
  destruct (extract lib (stdin w)) as [downloaded|e] eqn:Hx.
  2:{ rewrite (run_extract_raises py_repr lib w e Hin Hx).
      destruct (is_Exception e); reflexivity. }
  destruct (none_or_not downloaded) as [-> | Hnone].
  { rewrite (run_extract_none py_repr lib w Hin Hx). reflexivity. }
  assert (Hlist : match downloaded with
                  | VNone => []
                  | _ => [ CallBareExtraction (stdin w) ]
                  end = [ CallBareExtraction (stdin w) ])
    by (destruct downloaded; congruence).
  rewrite Hlist.
  destruct (bare_extraction lib (stdin w)) as [extracted|e] eqn:Hb.
  2:{ rewrite (run_bare_extraction_raises py_repr lib w downloaded e Hin Hx Hnone Hb).
      destruct (is_Exception e); reflexivity. }
  destruct (dict_or_not (py_or extracted (VDict []))) as [[meta Hmeta] | Hmeta].
  - rewrite (run_with_metadata py_repr lib w downloaded extracted meta
               Hin Hx Hnone Hb Hmeta).
    cbn zeta. destruct (json_dumps py_repr _) as [s|e]; [|destruct (is_Exception e)];
      cbn; rewrite <- ?app_assoc; reflexivity.
  - rewrite (run_metadata_not_dict py_repr lib w downloaded extracted
               Hin Hx Hnone Hb Hmeta).
    reflexivity.
Qed.

(** X8: whatever the page and the library, what the filter writes to stdout
    is nothing at all (an uncaught exception) or one line of printable ASCII:
    a line break or a character beyond ASCII inside the text never reaches
    the output unescaped. *)
Theorem output_is_one_printable_line (lib : trafilatura) (w : world) :
  (forall f, printable (py_repr (VFloat f))) ->
  exists text,
    stdout (snd (run py_repr (Imported lib) (py "__main__") w)) = stdout w ++ text
    /\ (text = [] \/ exists line, text = line ++ newline /\ printable line).
Proof.
  intros Hrepr.
  assert (Hempty : printable (py "{}")) by (apply PyProofs.printable_py_ascii; reflexivity).
  assert (Hline : exists line, py "{}" ++ newline = line ++ newline /\ printable line)
    by (exists (py "{}"); split; [reflexivity | exact Hempty]).
  destruct (stdin w) as [|c html] eqn:Hw.
  { rewrite (run_empty_stdin py_repr lib w Hw). eexists. split; [reflexivity|]. auto. }
  assert (Hin : stdin w <> []) by (rewrite Hw; discriminate).
  clear c html Hw.
  destruct (extract lib (stdin w)) as [downloaded|e] eqn:Hx.
  2:{ rewrite (run_extract_raises py_repr lib w e Hin Hx).
      destruct (is_Exception e); eexists; (split; [reflexivity|]); auto. }
  destruct (none_or_not downloaded) as [-> | Hnone].
  { rewrite (run_extract_none py_repr lib w Hin Hx).
    eexists. split; [reflexivity|]. auto. }
  destruct (bare_extraction lib (stdin w)) as [extracted|e] eqn:Hb.
  2:{ rewrite (run_bare_extraction_raises py_repr lib w downloaded e Hin Hx Hnone Hb).
      destruct (is_Exception e); eexists; (split; [reflexivity|]); auto. }
  destruct (dict_or_not (py_or extracted (VDict []))) as [[meta Hmeta] | Hmeta].
  - rewrite (run_with_metadata py_repr lib w downloaded extracted meta
               Hin Hx Hnone Hb Hmeta).
    cbn zeta.
    destruct (json_dumps py_repr _) as [s|e] eqn:Hs.
    + exists (s ++ newline). split; [reflexivity|]. right. exists s.
      split; [reflexivity|]. exact (PyProofs.printable_json_dumps _ _ _ Hrepr Hs).
    + rewrite (PyProofs.json_dumps_raises _ _ _ Hs). cbn.
      eexists. split; [reflexivity|]. auto.
  - rewrite (run_metadata_not_dict py_repr lib w downloaded extracted
               Hin Hx Hnone Hb Hmeta).
    eexists. split; [reflexivity|]. auto.
Qed.

End Cases.

Import Samples.

Lemma sample_repr_printable : forall f, printable (sample_repr (VFloat f)).
Proof. intros f. apply PyProofs.printable_py_ascii. reflexivity. Qed.

Lemma filter_always_answers_witness :
  (forall e, extract lib_ok (stdin (piped page)) = Raise e -> is_Exception e = true)
  /\ (forall e, bare_extraction lib_ok (stdin (piped page)) = Raise e
                -> is_Exception e = true)
  /\ exists w' line,
       run sample_repr (Imported lib_ok) (py "__main__") (piped page) = (Exit 0, w')
       /\ stdin w' = []
       /\ stdout w' = stdout (piped page) ++ line ++ newline.
Proof.
  assert (Hx : forall e, extract lib_ok (stdin (piped page)) = Raise e
                         -> is_Exception e = true) by (intros e H; discriminate H).
  assert (Hb : forall e, bare_extraction lib_ok (stdin (piped page)) = Raise e
                         -> is_Exception e = true) by (intros e H; discriminate H).
  split; [exact Hx|]. split; [exact Hb|].
  destruct (filter_always_answers sample_repr lib_ok (piped page) Hx Hb)
    as (w' & line & Hrun & Hin & Hout & _).
  exists w', line. split; [exact Hrun|]. split; [exact Hin | exact Hout].
Defined.

Lemma interrupt_is_not_swallowed_witness :
  stdin (piped page) <> []
  /\ is_Exception KeyboardInterrupt = false
  /\ extract lib_interrupted (stdin (piped page)) = Raise KeyboardInterrupt
  /\ exists w',
       run sample_repr (Imported lib_interrupted) (py "__main__") (piped page)
       = (Uncaught KeyboardInterrupt, w')
       /\ stdout w' = [].
Proof.
  assert (Hin : stdin (piped page) <> []) by discriminate.
  split; [exact Hin|]. split; [reflexivity|]. split; [reflexivity|].
  apply (interrupt_is_not_swallowed sample_repr lib_interrupted (piped page)
           KeyboardInterrupt Hin eq_refl).
  left. reflexivity.
Defined.

Lemma metadata_exception_drops_text_witness :
  stdin (piped page) <> []
  /\ extract lib_metadata_raises (stdin (piped page)) = Ret (VStr (py "Hello"))
  /\ bare_extraction lib_metadata_raises (stdin (piped page)) = Raise ValueError
  /\ run sample_repr (Imported lib_metadata_raises) (py "__main__") (piped page)
     = (Exit 0, after_calls (piped page) true (py "{}" ++ newline)).
Proof.
  assert (Hin : stdin (piped page) <> []) by discriminate.
  split; [exact Hin|]. split; [reflexivity|]. split; [reflexivity|].
  apply (metadata_exception_drops_text sample_repr lib_metadata_raises (piped page)
           (VStr (py "Hello")) ValueError Hin eq_refl ltac:(discriminate)
           eq_refl eq_refl).
Defined.

Lemma metadata_object_drops_text_witness :
  stdin (piped page) <> []
  /\ bare_extraction lib_document_object (stdin (piped page))
     = Ret (VObj (py "Document"))
  /\ run sample_repr (Imported lib_document_object) (py "__main__") (piped page)
     = (Exit 0, after_calls (piped page) true (py "{}" ++ newline)).
Proof.
  assert (Hin : stdin (piped page) <> []) by discriminate.
  split; [exact Hin|]. split; [reflexivity|].
  apply (metadata_object_drops_text sample_repr lib_document_object (piped page)
           (VStr (py "Hello")) (VObj (py "Document")) Hin eq_refl
           ltac:(discriminate) eq_refl eq_refl).
  intros d. discriminate.
Defined.

Lemma unserialisable_field_drops_text_witness :
  stdin (piped page) <> []
  /\ bare_extraction lib_date_object (stdin (piped page))
     = Ret (VDict [ (py "date", VObj (py "datetime")) ])
  /\ run sample_repr (Imported lib_date_object) (py "__main__") (piped page)
     = (Exit 0, after_calls (piped page) true (py "{}" ++ newline)).
Proof.
  assert (Hin : stdin (piped page) <> []) by discriminate.
  split; [exact Hin|]. split; [reflexivity|].
  apply (unserialisable_field_drops_text sample_repr lib_date_object (piped page)
           (VStr (py "Hello")) (VDict [ (py "date", VObj (py "datetime")) ])
           [ (py "date", VObj (py "datetime")) ] Hin eq_refl
           ltac:(discriminate) eq_refl eq_refl eq_refl).
Defined.

Lemma missing_metadata_gives_nulls_witness :
  stdin (piped page) <> []
  /\ bare_extraction lib_no_metadata (stdin (piped page)) = Ret VNone
  /\ run sample_repr (Imported lib_no_metadata) (py "__main__") (piped page)
     = (Exit 0,
        after_calls (piped page) true
          (record_text (py "null") (quote ++ py "Hello" ++ quote) (py "null")
             (py "null") (py "null") ++ newline)).
Proof.
  assert (Hin : stdin (piped page) <> []) by discriminate.
  split; [exact Hin|]. split; [reflexivity|].
  apply (missing_metadata_gives_nulls sample_repr lib_no_metadata (piped page)
           (py "Hello") VNone Hin eq_refl eq_refl eq_refl).
Defined.

Lemma output_is_one_printable_line_witness :
  (forall f, printable (sample_repr (VFloat f)))
  /\ exists text,
       stdout (snd (run sample_repr (Imported lib_ok) (py "__main__") (piped page)))
       = stdout (piped page) ++ text
       /\ (text = [] \/ exists line, text = line ++ newline /\ printable line).
Proof.
  split; [exact sample_repr_printable|].
  apply (output_is_one_printable_line sample_repr lib_ok (piped page)
           sample_repr_printable).
Defined.

End ExtractCoverage.

(* ===================================================================== *)
(** * Properties of the demo                                              *)
(* ===================================================================== *)

Module DigestProofs.
Import Py Digest.

(** ** Integers within the range of a double convert without overflow *)

Lemma round_half_even_le (num den : N) :
  (round_half_even num den <= num / den + 1)%N.
Proof.
  unfold round_half_even.
  destruct ((den <? 2 * (num mod den))%N || _); lia.
Qed.

Lemma float_of_int_in_range (z : Z) :
  Z.abs z < 2 ^ 1023 -> exists f, float_of_int z = Ret f.
Proof.
  intros Hz. unfold float_of_int.
  set (a := Z.abs_N z).
  destruct (N.size a <=? 53)%N eqn:Hbits; [eauto|].
  apply N.leb_gt in Hbits.
  set (sh := (N.size a - 53)%N).
  assert (Ha : (a < 2 ^ 1023)%N).
  { subst a. apply N2Z.inj_lt. rewrite N2Z.inj_abs_N.
    change (Z.of_N (2 ^ 1023)) with (2 ^ 1023). exact Hz. }
  assert (Hpos : (a <> 0)%N).
  { intros H0. rewrite H0 in Hbits. cbn in Hbits. lia. }
  assert (Hsize : (N.size a <= 1023)%N).
  { rewrite N.size_log2 by exact Hpos.
    apply N.le_succ_l. apply N.log2_lt_pow2; lia. }
  assert (Hsplit : (N.size a = sh + 53)%N) by (subst sh; lia).
  assert (Hgt : (a < 2 ^ sh * 2 ^ 53)%N).
  { rewrite <- N.pow_add_r, <- Hsplit. apply N.size_gt. }
  assert (Hq : (round_half_even a (2 ^ sh) <= 2 ^ 53)%N).
  { etransitivity; [apply round_half_even_le|].
    assert (a / 2 ^ sh < 2 ^ 53)%N; [|lia].
    apply N.Div0.div_lt_upper_bound. exact Hgt. }
  assert (Hprod : (round_half_even a (2 ^ sh) * 2 ^ sh <= 2 ^ 1023)%N).
  { etransitivity; [apply N.mul_le_mono_r; exact Hq|].
    rewrite <- N.pow_add_r. apply N.pow_le_mono_r; lia. }
  assert (Hlt : (2 ^ 1023 < 2 ^ 1024)%N) by (apply N.pow_lt_mono_r; lia).
  destruct (2 ^ 1024 <=? round_half_even a (2 ^ sh) * 2 ^ sh)%N eqn:Hover.
  - apply N.leb_le in Hover. exfalso.
    apply (N.lt_irrefl (2 ^ 1023)).
    eapply N.lt_le_trans; [exact Hlt|]. etransitivity; eassumption.
  - eauto.
Qed.

Lemma format_2f_number (v : value) :
  is_number v = true -> exists s, format_2f v = Ret s.
Proof.
  destruct v; cbn [is_number]; try discriminate; intros H.
  - apply Z.ltb_lt in H. destruct (float_of_int_in_range z H) as [f Hf].
    unfold format_2f. rewrite Hf. eauto.
  - cbn. eauto.
Qed.

(** ** The citation loop *)

Section Loop.

Variable py_repr : value -> pystr.
Variable encodes : codepoint -> bool.

Lemma citation_line_total (c : value) :
  has_id_and_score c = true -> exists line, citation_line py_repr c = Ret line.
Proof.
  destruct c as [| | | | | |d|]; cbn [has_id_and_score]; try discriminate.
  unfold has_field, citation_line, result_bind, getitem, get.
  destruct (dict_lookup d (py "id")) as [id|]; [|discriminate].
  destruct (dict_lookup d (py "score")) as [score|]; [|discriminate].
  intros H. apply andb_prop in H as [_ Hscore].
  destruct (format_2f_number score Hscore) as [text Htext]. rewrite Htext.
  eauto.
Qed.

(** *** What stdout can write *)

Lemma writes_app (s t : pystr) :
  writes encodes (s ++ t) = writes encodes s && writes encodes t.
Proof. unfold writes. apply forallb_app. Qed.

(** Printable ASCII goes through every encoding. *)
Lemma writes_printable (s : pystr) : printable s -> writes encodes s = true.
Proof.
  unfold printable, writes. intros H. induction H as [|c s Hc _ IH]; [reflexivity|].
  cbn [forallb]. rewrite IH. unfold can_encode.
  assert (Hlt : (c <? 128)%N = true) by (apply N.ltb_lt; lia).
  rewrite Hlt. reflexivity.
Qed.

Lemma print_writes (s : pystr) (w : world) :
  writes encodes s = true ->
  print encodes s w
  = (Ret tt, {| stdout := stdout w ++ s ++ newline; sent := sent w |}).
Proof. intros H. unfold print. rewrite H. reflexivity. Qed.

Lemma print_fails (s : pystr) (w : world) :
  writes encodes s = false -> print encodes s w = (Raise UnicodeEncodeError, w).
Proof. intros H. unfold print. rewrite H. reflexivity. Qed.

(** The line of a citation with an id and a numeric score, and whether
    stdout can write it. *)
Lemma citation_line_writes (d : list (pystr * value)) :
  has_id_and_score (VDict d) = true ->
  exists score_text,
    printable score_text
    /\ citation_line py_repr (VDict d)
       = Ret (py "- " ++ field_text py_repr d (py "id") ++ py " (score="
                ++ score_text ++ py ") " ++ field_text py_repr d (py "url"))
    /\ writes encodes
         (py "- " ++ field_text py_repr d (py "id") ++ py " (score="
            ++ score_text ++ py ") " ++ field_text py_repr d (py "url"))
       = can_write_citation py_repr encodes (VDict d).
Proof.
  cbn [has_id_and_score can_write_citation].
  unfold has_field, citation_line, result_bind, getitem, get, field_text.
  destruct (dict_lookup d (py "id")) as [id|]; [|discriminate].
  destruct (dict_lookup d (py "score")) as [score|]; [|discriminate].
  intros H. apply andb_prop in H as [_ Hscore].
  destruct (format_2f_number score Hscore) as [text Htext]. rewrite Htext.
  pose proof (PyProofs.printable_format_2f score text Htext) as Hprintable.
  exists text. split; [exact Hprintable|].
  assert (Hlink : py_str py_repr
                    match dict_lookup d (py "url") with
                    | Some x => x
                    | None => VStr []
                    end
                  = match dict_lookup d (py "url") with
                    | Some v => py_str py_repr v
                    | None => []
                    end)
    by (destruct (dict_lookup d (py "url")); reflexivity).
  rewrite Hlink. split; [reflexivity|].
  rewrite !writes_app, (writes_printable text Hprintable).
  assert (Hdash : writes encodes (py "- ") = true) by reflexivity.
  assert (Hopen : writes encodes (py " (score=") = true) by reflexivity.
  assert (Hclose : writes encodes (py ") ") = true) by reflexivity.
  rewrite Hdash, Hopen, Hclose. cbn [andb]. reflexivity.
Qed.

Lemma citation_line_writable (c : value) :
  has_id_and_score c = true -> can_write_citation py_repr encodes c = true ->
  exists line, citation_line py_repr c = Ret line /\ writes encodes line = true.
Proof.
  destruct c as [| | | | | |d|]; try discriminate.
  intros Hshape Hwrite.
  destruct (citation_line_writes d Hshape) as (text & _ & Hline & Hwrites).
  eexists. split; [exact Hline|]. rewrite Hwrites. exact Hwrite.
Qed.

(** Every citation of a list that is well shaped and writable has its line,
    and stdout can write it. *)
Lemma citation_lines_writable (cites : list value) :
  forallb has_id_and_score cites = true ->
  forallb (can_write_citation py_repr encodes) cites = true ->
  exists lines,
    Forall2 (fun c l => citation_line py_repr c = Ret l /\ writes encodes l = true)
      cites lines.
Proof.
  induction cites as [|c cites IH]; intros Hshape Hwrite.
  - exists []. constructor.
  - cbn in Hshape, Hwrite.
    apply andb_prop in Hshape as [Hc Hrest]. apply andb_prop in Hwrite as [Hwc Hwrest].
    destruct (citation_line_writable c Hc Hwc) as (l & Hl & Hwl).
    destruct (IH Hrest Hwrest) as [ls Hls].
    exists (l :: ls). constructor; [split; assumption | assumption].
Qed.


Lemma Forall2_lines (cites : list value) (lines : list pystr) :
  Forall2 (fun c l => citation_line py_repr c = Ret l /\ writes encodes l = true)
    cites lines ->
  Forall2 (fun c l => citation_line py_repr c = Ret l) cites lines.
Proof. intros H. induction H as [|c l cites lines [Hc _] _ IH]; constructor; assumption. Qed.


(** A citation without a url prints an empty field in its place. *)
Lemma citation_line_without_url (d : list (pystr * value)) (id : pystr) (f : float64) :
  dict_lookup d (py "id") = Some (VStr id) ->
  dict_lookup d (py "score") = Some (VFloat f) ->
  dict_lookup d (py "url") = None ->
  citation_line py_repr (VDict d)
  = Ret (py "- " ++ id ++ py " (score=" ++ fixed2 f ++ py ") ").
Proof.
  intros Hid Hscore Hurl. unfold citation_line, result_bind, getitem, get.
  rewrite Hid, Hscore, Hurl. cbn [format_2f py_str].
  repeat f_equal.
Qed.

(** A score that is not a number stops the loop: [format] raises. *)
Lemma citation_line_text_score (id score : pystr) :
  citation_line py_repr
    (VDict [ (py "id", VStr id); (py "score", VStr score) ])
  = Raise ValueError.
Proof. reflexivity. Qed.

End Loop.

(** ** The two requests *)

Section Requests.

Variable py_repr : value -> pystr.
Variable encodes : codepoint -> bool.
Variable srv : server.

Lemma dumps_DOCUMENTS : json_dumps py_repr DOCUMENTS = Ret index_body.
Proof. vm_compute. reflexivity. Qed.

Lemma dumps_RAG_QUERY : json_dumps py_repr RAG_QUERY = Ret rag_body.
Proof. vm_compute. reflexivity. Qed.

Example rag_body_text :
  rag_body
  = py "{"
      ++ json_key "query"
      ++ json_str "Summarize recent advances in retrieval augmented language models"
      ++ py ", " ++ json_key "sessionId" ++ json_str "academic-session"
      ++ py ", " ++ json_key "k" ++ py "2"
      ++ py ", " ++ json_key "summaryLevels" ++ py "[" ++ json_str "paragraph" ++ py "]"
      ++ py "}".
Proof. reflexivity. Qed.

Example index_body_text :
  index_body
  = py "{" ++ json_key "documents" ++ py "["
      ++ py "{" ++ json_key "id" ++ json_str "paper-llm"
      ++ py ", " ++ json_key "text"
      ++ json_str "This paper explores retrieval augmented language models for domain adaptation."
      ++ py ", " ++ json_key "metadata"
      ++ py "{" ++ json_key "url" ++ json_str "https://papers.example.com/rag" ++ py "}"
      ++ py "}, "
      ++ py "{" ++ json_key "id" ++ json_str "paper-eval"
      ++ py ", " ++ json_key "text"
      ++ json_str "We propose evaluation metrics for agent coordination in multi-step tasks."
      ++ py ", " ++ json_key "metadata"
      ++ py "{" ++ json_key "url" ++ json_str "https://papers.example.com/eval" ++ py "}"
      ++ py "}"
      ++ py "]}".
Proof. reflexivity. Qed.

(** [print] sends nothing. *)
Lemma print_sent (s : pystr) (w : world) :
  sent (snd (print encodes s w)) = sent w.
Proof. unfold print. destruct (writes encodes s); reflexivity. Qed.

(** The loop sends nothing. *)
Lemma print_citations_sent (rag : value) (w : world) :
  sent (snd (print_citations py_repr encodes rag w)) = sent w.
Proof.
  unfold print_citations, bind at 1 2, lift at 1 2.
  destruct (getitem rag (py "citations")) as [citations|]; [|reflexivity].
  destruct (iter citations) as [items|]; [|reflexivity].
  revert w. induction items as [|c items IH]; intros w; [reflexivity|].
  cbn [for_each]. unfold bind at 1 2, lift at 1.
  destruct (citation_line py_repr c) as [line|]; [|reflexivity].
  unfold print at 1. destruct (writes encodes line); [|reflexivity].
  rewrite IH. reflexivity.
Qed.

Lemma bind_ret {A B} (c : prog world A) (k : A -> prog world B) w a w' :
  c w = (Ret a, w') -> bind c k w = k a w'.
Proof. intros H. unfold bind. rewrite H. reflexivity. Qed.

Lemma bind_raise {A B} (c : prog world A) (k : A -> prog world B) w e w' :
  c w = (Raise e, w') -> bind c k w = (Raise e, w').
Proof. intros H. unfold bind. rewrite H. reflexivity. Qed.

Lemma post_json_DOCUMENTS (w : world) :
  post_json py_repr srv (py "/v1/semantic/index") DOCUMENTS w
  = (srv (sent w ++ [ posted (py "/v1/semantic/index") index_body ]),
     {| stdout := stdout w;
        sent := sent w ++ [ posted (py "/v1/semantic/index") index_body ] |}).
Proof.
  unfold post_json, bind, lift. rewrite dumps_DOCUMENTS. reflexivity.
Qed.

Lemma post_json_RAG_QUERY (w : world) :
  post_json py_repr srv (py "/v1/semantic/rag") RAG_QUERY w
  = (srv (sent w ++ [ posted (py "/v1/semantic/rag") rag_body ]),
     {| stdout := stdout w;
        sent := sent w ++ [ posted (py "/v1/semantic/rag") rag_body ] |}).
Proof.
  unfold post_json, bind, lift. rewrite dumps_RAG_QUERY. reflexivity.
Qed.

(** What [main] has sent when the index call raises. *)
Lemma main_sent_after_failure (w : world) (e : exn) :
  srv (sent w ++ [ posted (py "/v1/semantic/index") index_body ]) = Raise e ->
  sent (snd (main py_repr encodes srv w))
  = sent w ++ [ posted (py "/v1/semantic/index") index_body ].
Proof.
  intros Hack. unfold main.
  erewrite bind_ret by reflexivity.
  erewrite bind_raise
    by (rewrite post_json_DOCUMENTS; cbn [stdout sent]; rewrite Hack; reflexivity).
  reflexivity.
Qed.

(** What [main] has sent once the index call has been answered. *)
Lemma main_sent_after_answer (w : world) (ack : value) :
  srv (sent w ++ [ posted (py "/v1/semantic/index") index_body ]) = Ret ack ->
  sent (snd (main py_repr encodes srv w))
  = sent w ++ [ posted (py "/v1/semantic/index") index_body;
                posted (py "/v1/semantic/rag") rag_body ].
Proof.
  intros Hack. unfold main.
  erewrite bind_ret by reflexivity.
  erewrite bind_ret
    by (rewrite post_json_DOCUMENTS; cbn [stdout sent]; rewrite Hack; reflexivity).
  erewrite bind_ret by reflexivity.
  unfold bind at 1. rewrite post_json_RAG_QUERY. cbn [stdout sent].
  rewrite <- app_assoc. cbn [app].
  destruct (srv (sent w ++ [ _; _ ])) as [rag|]; [|reflexivity].
  erewrite bind_ret by reflexivity.
  unfold bind at 1, lift at 1.
  destruct (getitem rag (py "answer")) as [answer|]; [|reflexivity].
  unfold bind at 1. unfold print at 1.
  destruct (writes encodes (py_str py_repr answer)); [|reflexivity].
  erewrite bind_ret by reflexivity.
  rewrite print_citations_sent. reflexivity.
Qed.

(** C3: the payload of the first call has the documented shape of an index
    request and holds the two snippets paper-llm and paper-eval, each with
    its text and a url in its metadata; its serialisation is the body of
    the first request [main] sends, to /v1/semantic/index. *)
Theorem index_request_conforms (w : world) :
  is_index_request DOCUMENTS = true
  /\ (exists text1 link1 text2 link2,
        DOCUMENTS
        = VDict [ (py "documents",
                   VList [ snippet (py "paper-llm") text1 link1;
                           snippet (py "paper-eval") text2 link2 ]) ]
        /\ contains text1 (py "retrieval augmented language models") = true
        /\ contains text2 (py "evaluation metrics for agent coordination") = true)
  /\ json_dumps py_repr DOCUMENTS = Ret index_body
  /\ exists rest,
       sent (snd (main py_repr encodes srv w))
       = sent w
           ++ {| url := py "http://localhost:5213/v1/semantic/index";
                 data := index_body;
                 headers := [ (py "Content-Type", py "application/json") ] |}
           :: rest.
Proof.
  split; [reflexivity|]. split.
  { do 4 eexists. split; [reflexivity|]. split; vm_compute; reflexivity. }
  split; [apply dumps_DOCUMENTS|].
  destruct (srv (sent w ++ [ posted (py "/v1/semantic/index") index_body ]))
    as [ack|e] eqn:Hack.
  - eexists. rewrite (main_sent_after_answer w ack Hack). reflexivity.
  - exists []. rewrite (main_sent_after_failure w e Hack). reflexivity.
Qed.

(** C4: the payload of the second call has the documented shape of a RAG
    request, with k = 2 and one summary level, so the orchestrator's
    argument check lets it through; once the index call is answered, its
    serialisation is the body of the request [main] sends to
    /v1/semantic/rag. *)
Theorem rag_request_conforms (w : world) (ack : value) :
  srv (sent w ++ [ posted (py "/v1/semantic/index") index_body ]) = Ret ack ->
  is_rag_request RAG_QUERY = true
  /\ dict_keys (match RAG_QUERY with VDict d => d | _ => [] end)
     = [ py "query"; py "sessionId"; py "k"; py "summaryLevels" ]
  /\ getitem RAG_QUERY (py "k") = Ret (VInt 2)
  /\ getitem RAG_QUERY (py "summaryLevels") = Ret (VList [ VStr (py "paragraph") ])
  /\ fails_with_InvalidArgumentError RAG_QUERY = false
  /\ json_dumps py_repr RAG_QUERY = Ret rag_body
  /\ sent (snd (main py_repr encodes srv w))
     = sent w
         ++ [ posted (py "/v1/semantic/index") index_body;
              {| url := py "http://localhost:5213/v1/semantic/rag";
                 data := rag_body;
                 headers := [ (py "Content-Type", py "application/json") ] |} ].
Proof.
  intros Hack. do 5 (split; [reflexivity|]).
  split; [apply dumps_RAG_QUERY|].
  rewrite (main_sent_after_answer w ack Hack). reflexivity.
Qed.

End Requests.

Import Samples.


(** The run of the loop on that response. *)
Example lone_surrogate_stops_loop :
  print_citations sample_repr utf8 response_lone_surrogate fresh
  = (Raise UnicodeEncodeError, fresh).
Proof. vm_compute. reflexivity. Qed.


(** The whole demo against the sample server. *)
Example main_on_sample_server :
  main sample_repr utf8 sample_server fresh
  = (Ret tt,
     {| stdout :=
          py "Indexing academic snippets..." ++ newline
          ++ py "Running RAG query..." ++ newline
          ++ newline ++ py "=== Academic Digest ===" ++ newline
          ++ py "Retrieval helps." ++ newline
          ++ newline ++ py "Citations:" ++ newline
          ++ py "- paper-llm (score=0.88) https://papers.example.com/rag" ++ newline
          ++ py "- paper-eval (score=0.00) " ++ newline;
        sent := [ posted (py "/v1/semantic/index") index_body;
                  posted (py "/v1/semantic/rag") rag_body ] |}).
Proof. vm_compute. reflexivity. Qed.

Lemma rag_request_witness :
  sample_server (sent fresh ++ [ posted (py "/v1/semantic/index") index_body ])
  = Ret (VDict [ (py "status", VStr (py "ok")) ])
  /\ is_rag_request RAG_QUERY = true
  /\ fails_with_InvalidArgumentError RAG_QUERY = false
  /\ sent (snd (main sample_repr utf8 sample_server fresh))
     = [ posted (py "/v1/semantic/index") index_body;
         posted (py "/v1/semantic/rag") rag_body ].
Proof.
  split; [reflexivity|].
  destruct (rag_request_conforms sample_repr utf8 sample_server fresh
              (VDict [ (py "status", VStr (py "ok")) ]) eq_refl)
    as (Hshape & _ & _ & _ & Hok & _ & Hsent).
  split; [exact Hshape|]. split; [exact Hok|]. exact Hsent.
Defined.

End DigestProofs.

(* ===================================================================== *)
(** * The demo, step by step                                              *)
(* ===================================================================== *)

Module DigestCoverage.
Import Py Digest DigestProofs.

Section Steps.

Variable py_repr : value -> pystr.
Variable encodes : codepoint -> bool.
Variable srv : server.

(** ** [post_json] *)

(** X9: [post_json] sends one request or none.  A payload of plain JSON
    values within the interpreter's limits goes out as one request to
    [API_BASE + path], its body the JSON text, its header the JSON content
    type, and the call evaluates to what the other end answers or raises; a
    payload with an object [json.dumps] cannot serialise raises an
    [Exception] and sends nothing. *)
Theorem post_json_sends_one_request_or_none
    (path : pystr) (payload : value) (w : world) :
  (modest 16 payload = true ->
   exists body,
     json_dumps py_repr payload = Ret body
     /\ post_json py_repr srv path payload w
        = (srv (sent w ++ [ {| url := API_BASE ++ path;
                               data := body;
                               headers := [ (py "Content-Type",
                                             py "application/json") ] |} ]),
           {| stdout := stdout w;
              sent := sent w ++ [ {| url := API_BASE ++ path;
                                     data := body;
                                     headers := [ (py "Content-Type",
                                                   py "application/json") ] |} ] |}))
  /\ (serialisable payload = false ->
      exists e,
        is_Exception e = true
        /\ post_json py_repr srv path payload w = (Raise e, w)).
Proof.
  split.
  - intros Hok. apply PyProofs.modest_serialisable in Hok.
    destruct (PyProofs.json_dumps_total py_repr payload Hok) as [body Hbody].
    exists body. split; [exact Hbody|].
    unfold post_json, bind, lift. rewrite Hbody. reflexivity.
  - intros Hno. exists TypeError. split; [reflexivity|].
    unfold post_json, bind, lift.
    rewrite (PyProofs.json_dumps_rejects py_repr payload Hno). reflexivity.
Qed.

(** ** [main] *)

Lemma main_then_report :
  main py_repr encodes srv
  = bind (print encodes (py "Indexing academic snippets..."))
      (fun _ =>
         bind (post_json py_repr srv (py "/v1/semantic/index") DOCUMENTS)
           (fun _ =>
              bind (print encodes (py "Running RAG query..."))
                (fun _ =>
                   bind (post_json py_repr srv (py "/v1/semantic/rag") RAG_QUERY)
                     (report py_repr encodes)))).
Proof. reflexivity. Qed.

(** [main], by what the server does. *)
Lemma main_cases (w : world) :
  main py_repr encodes srv w
  = match srv (sent w ++ [ index_request ]) with
    | Raise e =>
        (Raise e, {| stdout := announced_index (stdout w);
                     sent := sent w ++ [ index_request ] |})
    | Ret _ =>
        match srv (sent w ++ [ index_request; rag_request ]) with
        | Raise e =>
            (Raise e, {| stdout := announced_rag (stdout w);
                         sent := sent w ++ [ index_request; rag_request ] |})
        | Ret rag =>
            report py_repr encodes rag
              {| stdout := announced_rag (stdout w);
                 sent := sent w ++ [ index_request; rag_request ] |}
        end
    end.
Proof.
  rewrite main_then_report.
  erewrite bind_ret by reflexivity.
  unfold bind at 1. rewrite post_json_DOCUMENTS. cbn [stdout sent].
  fold index_request.
  destruct (srv (sent w ++ [ index_request ])) as [ack|e]; [|reflexivity].
  erewrite bind_ret by reflexivity.
  unfold bind at 1. rewrite post_json_RAG_QUERY. cbn [stdout sent].
  fold rag_request. rewrite <- !app_assoc. cbn [app].
  unfold announced_rag, announced_index. rewrite <- !app_assoc.
  destruct (srv (sent w ++ [ index_request; rag_request ])) as [rag|e]; reflexivity.
Qed.

(** [report], by what the response holds and what stdout can write. *)
Lemma report_cases (rag : value) (w : world) :
  report py_repr encodes rag w
  = let headed :=
      {| stdout := stdout w ++ (newline ++ py "=== Academic Digest ===") ++ newline;
         sent := sent w |} in
    match getitem rag (py "answer") with
    | Raise e => (Raise e, headed)
    | Ret answer =>
        if writes encodes (py_str py_repr answer)
        then
          print_citations py_repr encodes rag
            {| stdout := stdout headed ++ py_str py_repr answer ++ newline
                           ++ (newline ++ py "Citations:") ++ newline;
               sent := sent w |}
        else (Raise UnicodeEncodeError, headed)
    end.
Proof.
  unfold report. erewrite bind_ret by reflexivity.
  unfold bind at 1, lift at 1. cbn zeta.
  destruct (getitem rag (py "answer")) as [answer|e]; [|reflexivity].
  unfold bind at 1. unfold print at 1.
  destruct (writes encodes (py_str py_repr answer)); [|reflexivity].
  erewrite bind_ret by reflexivity.
  cbn [stdout sent]. rewrite <- !app_assoc. reflexivity.
Qed.

Lemma report_sent (rag : value) (w : world) :
  sent (snd (report py_repr encodes rag w)) = sent w.
Proof.
  rewrite report_cases. cbn zeta.
  destruct (getitem rag (py "answer")); [|reflexivity].
  destruct (writes encodes _); [|reflexivity].
  rewrite print_citations_sent. reflexivity.
Qed.

(** X10: when the index call raises (server down, HTTP error, a reply that
    is not JSON), [main] raises the same exception at once: one line has been
    written, and the RAG request is never sent. *)
Theorem index_failure_stops_demo (w : world) (e : exn) :
  srv (sent w ++ [ index_request ]) = Raise e ->
  main py_repr encodes srv w
  = (Raise e, {| stdout := stdout w ++ py "Indexing academic snippets..." ++ newline;
                 sent := sent w ++ [ index_request ] |}).
Proof. intros Hidx. rewrite main_cases, Hidx. reflexivity. Qed.

(** X11: when the RAG call raises, [main] raises the same exception: the two
    progress lines have been written, both requests sent, and nothing of a
    digest printed. *)
Theorem rag_failure_stops_demo (w : world) (ack : value) (e : exn) :
  srv (sent w ++ [ index_request ]) = Ret ack ->
  srv (sent w ++ [ index_request; rag_request ]) = Raise e ->
  main py_repr encodes srv w
  = (Raise e,
     {| stdout := stdout w ++ py "Indexing academic snippets..." ++ newline
                    ++ py "Running RAG query..." ++ newline;
        sent := sent w ++ [ index_request; rag_request ] |}).
Proof.
  intros Hidx Hrag. rewrite main_cases, Hidx, Hrag.
  unfold announced_rag, announced_index. rewrite <- !app_assoc. reflexivity.
Qed.

(** X12: for every server, [main] sends the index request first and the RAG
    request second, the second exactly when the first was answered (whatever
    the answer holds), and never a third. *)
Theorem requests_of_main (w : world) :
  sent (snd (main py_repr encodes srv w))
  = sent w
      ++ index_request
      :: match srv (sent w ++ [ index_request ]) with
         | Ret _ => [ rag_request ]
         | Raise _ => []
         end.
Proof.
  rewrite main_cases.
  destruct (srv (sent w ++ [ index_request ])) as [ack|e]; [|reflexivity].
  destruct (srv (sent w ++ [ index_request; rag_request ])) as [rag|e];
    [|reflexivity].
  rewrite report_sent. reflexivity.
Qed.


(** X14: a response without an "answer" stops [main] right after the digest
    header: [KeyError] when the response is an object, [TypeError] when it is
    anything else (a list, a string, null); no citation is printed. *)
Theorem response_without_answer (w : world) (ack rag : value) :
  srv (sent w ++ [ index_request ]) = Ret ack ->
  srv (sent w ++ [ index_request; rag_request ]) = Ret rag ->
  match rag with
  | VDict d => dict_lookup d (py "answer") = None
  | _ => True
  end ->
  main py_repr encodes srv w
  = (Raise (match rag with VDict _ => KeyError | _ => TypeError end),
     {| stdout :=
          stdout w ++ py "Indexing academic snippets..." ++ newline
            ++ py "Running RAG query..." ++ newline
            ++ newline ++ py "=== Academic Digest ===" ++ newline;
        sent := sent w ++ [ index_request; rag_request ] |}).
Proof.
  intros Hidx Hrag Hnone.
  rewrite main_cases, Hidx, Hrag, report_cases. cbn zeta.
  assert (Hget : getitem rag (py "answer")
                 = Raise (match rag with VDict _ => KeyError | _ => TypeError end)).
  { destruct rag; try reflexivity. cbn [getitem]. rewrite Hnone. reflexivity. }
  rewrite Hget. cbn [stdout sent].
  unfold announced_rag, announced_index. rewrite <- !app_assoc. reflexivity.
Qed.

(** X15: a response with an answer stdout can write and no "citations"
    raises [KeyError] after the answer and the citations header have been
    written. *)
Theorem response_without_citations
    (w : world) (ack answer : value) (d : list (pystr * value)) :
  srv (sent w ++ [ index_request ]) = Ret ack ->
  srv (sent w ++ [ index_request; rag_request ]) = Ret (VDict d) ->
  dict_lookup d (py "answer") = Some answer ->
  writes encodes (py_str py_repr answer) = true ->
  dict_lookup d (py "citations") = None ->
  main py_repr encodes srv w
  = (Raise KeyError,
     {| stdout :=
          stdout w ++ py "Indexing academic snippets..." ++ newline
            ++ py "Running RAG query..." ++ newline
            ++ newline ++ py "=== Academic Digest ===" ++ newline
            ++ py_str py_repr answer ++ newline
            ++ newline ++ py "Citations:" ++ newline;
        sent := sent w ++ [ index_request; rag_request ] |}).
Proof.
  intros Hidx Hrag Hanswer Hwa Hcites.
  rewrite main_cases, Hidx, Hrag, report_cases. cbn zeta.
  cbn [getitem]. rewrite Hanswer, Hwa.
  unfold print_citations, bind at 1, lift at 1. cbn [getitem]. rewrite Hcites.
  cbn [stdout sent].
  unfold announced_rag, announced_index. rewrite <- !app_assoc. reflexivity.
Qed.

(** X19: an answer stdout cannot write (a lone surrogate, a character
    outside its encoding) stops [main] with [UnicodeEncodeError] right after
    the digest header; neither the answer nor a citation is printed. *)
Theorem unwritable_answer_stops_demo (w : world) (ack rag answer : value) :
  srv (sent w ++ [ index_request ]) = Ret ack ->
  srv (sent w ++ [ index_request; rag_request ]) = Ret rag ->
  getitem rag (py "answer") = Ret answer ->
  writes encodes (py_str py_repr answer) = false ->
  main py_repr encodes srv w
  = (Raise UnicodeEncodeError,
     {| stdout :=
          stdout w ++ py "Indexing academic snippets..." ++ newline
            ++ py "Running RAG query..." ++ newline
            ++ newline ++ py "=== Academic Digest ===" ++ newline;
        sent := sent w ++ [ index_request; rag_request ] |}).
Proof.
  intros Hidx Hrag Hanswer Hwa.
  rewrite main_cases, Hidx, Hrag, report_cases. cbn zeta.
  rewrite Hanswer, Hwa. cbn [stdout sent].
  unfold announced_rag, announced_index. rewrite <- !app_assoc. reflexivity.
Qed.

(** ** The citation loop *)

Lemma for_each_stops (good rest : list value) (bad : value) (lines : list pystr)
    (e : exn) (w : world) :
  Forall2 (fun c l => citation_line py_repr c = Ret l /\ writes encodes l = true)
    good lines ->
  stops_with py_repr encodes bad e ->
  for_each (good ++ bad :: rest)
    (fun cite => bind (lift (citation_line py_repr cite)) (print encodes)) w
  = (Raise e, {| stdout := stdout w ++ concat (List.map (fun l => l ++ newline) lines);
                 sent := sent w |}).
Proof.
  intros H Hbad. revert w. induction H as [|c l good lines [Hc Hw] _ IH]; intros w.
  - cbn [app for_each]. unfold bind at 1 2, lift at 1.
    destruct Hbad as [Hbad | (line & Hline & Hno & ->)].
    + rewrite Hbad. cbn. rewrite app_nil_r. destruct w; reflexivity.
    + rewrite Hline, (print_fails encodes line w Hno).
      cbn. rewrite app_nil_r. destruct w; reflexivity.
  - cbn [app for_each]. unfold bind at 1 2, lift at 1. rewrite Hc.
    rewrite (print_writes encodes l w Hw), IH. cbn [stdout sent List.map concat].
    rewrite <- !app_assoc. reflexivity.
Qed.

(** X16: the loop stops at the first citation it cannot print (no "id", no
    "score", a score that is not a number, an item that is not an object, a
    line stdout cannot write), raising what that one raised; the lines of
    the citations before it have been written, those after it are never
    looked at. *)
Theorem loop_stops_at_first_bad_citation
    (rag bad : value) (good rest : list value) (e : exn) (w : world) :
  getitem rag (py "citations") = Ret (VList (good ++ bad :: rest)) ->
  forallb has_id_and_score good = true ->
  forallb (can_write_citation py_repr encodes) good = true ->
  stops_with py_repr encodes bad e ->
  exists lines,
    Forall2 (fun c l => citation_line py_repr c = Ret l) good lines
    /\ print_citations py_repr encodes rag w
       = (Raise e,
          {| stdout := stdout w ++ concat (List.map (fun l => l ++ newline) lines);
             sent := sent w |}).
Proof.
  intros Hcites Hshape Hwrite Hbad.
  destruct (citation_lines_writable py_repr encodes good Hshape Hwrite)
    as [lines Hlines].
  exists lines. split; [apply (Forall2_lines py_repr encodes); exact Hlines|].
  unfold print_citations, bind at 1 2, lift at 1 2. rewrite Hcites. cbn [iter].
  apply for_each_stops; assumption.
Qed.

(** X17: the default of [cite.get('url', '')] covers a missing key only: a
    citation whose "url" is there and null prints [None] in its place. *)
Theorem null_url_prints_None
    (d : list (pystr * value)) (id : pystr) (f : float64) :
  dict_lookup d (py "id") = Some (VStr id) ->
  dict_lookup d (py "score") = Some (VFloat f) ->
  dict_lookup d (py "url") = Some VNone ->
  citation_line py_repr (VDict d)
  = Ret (py "- " ++ id ++ py " (score=" ++ fixed2 f ++ py ") None").
Proof.
  intros Hid Hscore Hurl. unfold citation_line, result_bind, getitem, get.
  rewrite Hid, Hscore, Hurl. cbn [format_2f py_str].
  repeat f_equal.
Qed.

(** X18: when "citations" is not a list, the loop writes no line: it raises
    [TypeError], on null or a number because they cannot be iterated, on a
    non-empty object or string because iterating yields keys or characters,
    which have no "id"; on an empty object or string it has nothing to do
    and returns. *)
Theorem citations_not_a_list (rag citations : value) (w : world) :
  getitem rag (py "citations") = Ret citations ->
  (forall l, citations <> VList l) ->
  print_citations py_repr encodes rag w
  = (match citations with
     | VDict [] | VStr [] => Ret tt
     | _ => Raise TypeError
     end, w).
Proof.
  intros Hget Hlist.
  unfold print_citations, bind at 1 2, lift at 1 2. rewrite Hget.
  destruct citations as [| b | z | f | s | l | d | cls]; try reflexivity.
  - destruct s as [|c s]; destruct w; reflexivity.
  - exfalso. exact (Hlist l eq_refl).
  - destruct d as [|[k v] d]; destruct w; reflexivity.
Qed.

End Steps.

Import Samples.

Lemma post_json_sends_one_request_or_none_witness :
  modest 16 DOCUMENTS = true
  /\ serialisable (VList [ VObj (py "datetime") ]) = false
  /\ (exists body,
        post_json sample_repr server_down (py "/v1/semantic/index") DOCUMENTS fresh
        = (Raise (Error "URLError"),
           {| stdout := []; sent := [ posted (py "/v1/semantic/index") body ] |}))
  /\ exists e,
       is_Exception e = true
       /\ post_json sample_repr server_down (py "/v1/semantic/index")
            (VList [ VObj (py "datetime") ]) fresh
          = (Raise e, fresh).
Proof.
  assert (Hok : modest 16 DOCUMENTS = true) by (vm_compute; reflexivity).
  assert (Hno : serialisable (VList [ VObj (py "datetime") ]) = false) by reflexivity.
  split; [exact Hok|]. split; [exact Hno|]. split.
  - destruct (post_json_sends_one_request_or_none sample_repr server_down
                (py "/v1/semantic/index") DOCUMENTS fresh) as [Hsend _].
    destruct (Hsend Hok) as (body & _ & Hpost).
    exists body. exact Hpost.
  - destruct (post_json_sends_one_request_or_none sample_repr server_down
                (py "/v1/semantic/index") (VList [ VObj (py "datetime") ]) fresh)
      as [_ Hreject].
    exact (Hreject Hno).
Defined.

Lemma index_failure_stops_demo_witness :
  server_down (sent fresh ++ [ index_request ]) = Raise (Error "URLError")
  /\ main sample_repr utf8 server_down fresh
     = (Raise (Error "URLError"),
        {| stdout := py "Indexing academic snippets..." ++ newline;
           sent := [ index_request ] |}).
Proof.
  split; [reflexivity|].
  apply (index_failure_stops_demo sample_repr utf8 server_down fresh
           (Error "URLError")).
  reflexivity.
Defined.

Lemma rag_failure_stops_demo_witness :
  server_fails_on_query (sent fresh ++ [ index_request ]) = Ret VNone
  /\ server_fails_on_query (sent fresh ++ [ index_request; rag_request ])
     = Raise (Error "HTTPError")
  /\ main sample_repr utf8 server_fails_on_query fresh
     = (Raise (Error "HTTPError"),
        {| stdout := py "Indexing academic snippets..." ++ newline
                       ++ py "Running RAG query..." ++ newline;
           sent := [ index_request; rag_request ] |}).
Proof.
  split; [reflexivity|]. split; [reflexivity|].
  apply (rag_failure_stops_demo sample_repr utf8 server_fails_on_query fresh VNone
           (Error "HTTPError")); reflexivity.
Defined.


Lemma response_without_answer_witness :
  server_answering (VList []) (sent fresh ++ [ index_request; rag_request ])
  = Ret (VList [])
  /\ main sample_repr utf8 (server_answering (VList [])) fresh
     = (Raise TypeError,
        {| stdout :=
             py "Indexing academic snippets..." ++ newline
               ++ py "Running RAG query..." ++ newline
               ++ newline ++ py "=== Academic Digest ===" ++ newline;
           sent := [ index_request; rag_request ] |}).
Proof.
  split; [reflexivity|].
  apply (response_without_answer sample_repr utf8 (server_answering (VList [])) fresh
           (VList []) (VList []) eq_refl eq_refl I).
Defined.

Lemma response_without_citations_witness :
  dict_lookup [ (py "answer", VStr (py "Hi")) ] (py "citations") = None
  /\ writes utf8 (py "Hi") = true
  /\ main sample_repr utf8
       (server_answering (VDict [ (py "answer", VStr (py "Hi")) ])) fresh
     = (Raise KeyError,
        {| stdout :=
             py "Indexing academic snippets..." ++ newline
               ++ py "Running RAG query..." ++ newline
               ++ newline ++ py "=== Academic Digest ===" ++ newline
               ++ py "Hi" ++ newline
               ++ newline ++ py "Citations:" ++ newline;
           sent := [ index_request; rag_request ] |}).
Proof.
  split; [reflexivity|]. split; [reflexivity|].
  apply (response_without_citations sample_repr utf8
           (server_answering (VDict [ (py "answer", VStr (py "Hi")) ])) fresh
           (VDict [ (py "answer", VStr (py "Hi")) ]) (VStr (py "Hi"))
           [ (py "answer", VStr (py "Hi")) ] eq_refl eq_refl eq_refl eq_refl eq_refl).
Defined.

Lemma unwritable_answer_stops_demo_witness :
  writes utf8 [ 55296%N ] = false
  /\ main sample_repr utf8
       (server_answering (VDict [ (py "answer", VStr [ 55296%N ]);
                                  (py "citations", VList []) ])) fresh
     = (Raise UnicodeEncodeError,
        {| stdout :=
             py "Indexing academic snippets..." ++ newline
               ++ py "Running RAG query..." ++ newline
               ++ newline ++ py "=== Academic Digest ===" ++ newline;
           sent := [ index_request; rag_request ] |}).
Proof.
  split; [reflexivity|].
  apply (unwritable_answer_stops_demo sample_repr utf8
           (server_answering (VDict [ (py "answer", VStr [ 55296%N ]);
                                      (py "citations", VList []) ])) fresh
           (VDict [ (py "answer", VStr [ 55296%N ]); (py "citations", VList []) ])
           (VDict [ (py "answer", VStr [ 55296%N ]); (py "citations", VList []) ])
           (VStr [ 55296%N ]) eq_refl eq_refl eq_refl eq_refl).
Defined.

Lemma loop_stops_at_first_bad_citation_witness :
  citation_line sample_repr (VDict [ (py "id", VStr (py "paper-eval")) ])
  = Raise KeyError
  /\ exists lines,
       length lines = 1%nat
       /\ print_citations sample_repr utf8 response_missing_score fresh
          = (Raise KeyError,
             {| stdout := concat (List.map (fun l => l ++ newline) lines);
                sent := [] |}).
Proof.
  split; [reflexivity|].
  destruct (loop_stops_at_first_bad_citation sample_repr utf8 response_missing_score
              (VDict [ (py "id", VStr (py "paper-eval")) ])
              [ VDict [ (py "id", VStr (py "paper-llm"));
                        (py "score", VFloat (FFinite false 7 (-3))) ] ]
              [ VDict [ (py "id", VStr (py "paper-late")); (py "score", VInt 1) ] ]
              KeyError fresh eq_refl eq_refl eq_refl (or_introl eq_refl))
    as (lines & Hlines & Hrun).
  exists lines. split; [|exact Hrun].
  apply Forall2_length in Hlines. symmetry. exact Hlines.
Defined.

Lemma null_url_prints_None_witness :
  dict_lookup [ (py "id", VStr (py "paper-llm"));
                (py "score", VFloat (FFinite false 7 (-3)));
                (py "url", VNone) ] (py "url") = Some VNone
  /\ citation_line sample_repr
       (VDict [ (py "id", VStr (py "paper-llm"));
                (py "score", VFloat (FFinite false 7 (-3)));
                (py "url", VNone) ])
     = Ret (py "- paper-llm (score=0.88) None").
Proof.
  split; [reflexivity|].
  apply (null_url_prints_None sample_repr
           [ (py "id", VStr (py "paper-llm"));
             (py "score", VFloat (FFinite false 7 (-3)));
             (py "url", VNone) ]
           (py "paper-llm") (FFinite false 7 (-3)) eq_refl eq_refl eq_refl).
Defined.

Lemma citations_not_a_list_witness :
  getitem (VDict [ (py "answer", VStr (py "Hi")); (py "citations", VNone) ])
    (py "citations") = Ret VNone
  /\ print_citations sample_repr utf8
       (VDict [ (py "answer", VStr (py "Hi")); (py "citations", VNone) ]) fresh
     = (Raise TypeError, fresh).
Proof.
  split; [reflexivity|].
  apply (citations_not_a_list sample_repr utf8
           (VDict [ (py "answer", VStr (py "Hi")); (py "citations", VNone) ])
           VNone fresh eq_refl).
  intros l. discriminate.
Defined.

End DigestCoverage.

(* ===================================================================== *)
(** * Properties of the service model                                     *)
(* ===================================================================== *)

Module ServiceProofs.
Import Py Service.

Section Facts.

Variable embedding : Type.
Variable embed : pystr -> embedding.
Variable similarity : embedding -> embedding -> Q.

(** ** The Document Store *)

Lemma put_each_valid (docs : list document) (s : gmap (list N) document) :
  forallb valid docs = true -> put_each docs s = inr (stored s docs).
Proof.
  revert s. induction docs as [|d docs IH]; intros s Hv; [reflexivity|].
  cbn in Hv. apply andb_prop in Hv as [Hd Hrest].
  cbn [put_each]. unfold put. rewrite Hd. cbn [stored foldl]. apply IH, Hrest.
Qed.

Lemma put_each_invalid (pre post : list document) (d : document)
    (s : gmap (list N) document) :
  forallb valid pre = true -> valid d = false ->
  put_each (pre ++ d :: post) s = inl ValidationError.
Proof.
  revert s. induction pre as [|p pre IH]; intros s Hv Hd.
  - cbn. unfold put. rewrite Hd. reflexivity.
  - cbn in Hv. apply andb_prop in Hv as [Hp Hrest].
    cbn [app put_each]. unfold put. rewrite Hp. apply IH; assumption.
Qed.

(** Every batch is all valid, or has a first invalid document. *)
Lemma first_invalid (docs : list document) :
  forallb valid docs = true
  \/ exists pre d post,
       docs = pre ++ d :: post /\ forallb valid pre = true /\ valid d = false.
Proof.
  induction docs as [|d docs IH]; [left; reflexivity|].
  destruct (valid d) eqn:Hd.
  - destruct IH as [Hall | (pre & x & post & -> & Hpre & Hx)].
    + left. cbn. rewrite Hd. exact Hall.
    + right. exists (d :: pre), x, post. cbn. rewrite Hd. auto.
  - right. exists [], d, docs. auto.
Qed.

Lemma stored_snoc (s : gmap (list N) document) (docs : list document) (x : document) :
  stored s (docs ++ [x]) = <[doc_id x := x]> (stored s docs).
Proof. unfold stored. rewrite foldl_app. reflexivity. Qed.

(** After a batch, each of its ids resolves to a document of the batch. *)
Lemma stored_lookup (s : gmap (list N) document) (docs : list document) (d : document) :
  d ∈ docs ->
  exists d', d' ∈ docs /\ doc_id d' = doc_id d /\ stored s docs !! doc_id d = Some d'.
Proof.
  induction docs as [|x docs IH] using rev_ind; intros Hin.
  - inversion Hin.
  - rewrite stored_snoc.
    destruct (decide (doc_id x = doc_id d)) as [Heq | Hne].
    + exists x. split; [set_solver|]. split; [exact Heq|].
      rewrite <- Heq. apply lookup_insert_eq.
    + assert (Hd : d ∈ docs).
      { apply elem_of_app in Hin as [H | H]; [exact H|].
        apply list_elem_of_singleton in H. subst. congruence. }
      destruct (IH Hd) as (d' & Hd' & Hid & Hlook).
      exists d'. split; [set_solver|]. split; [exact Hid|].
      rewrite lookup_insert_ne by exact Hne. exact Hlook.
Qed.

(** ** The Vector Index *)

Lemma str_eqb_eq (a b : pystr) : str_eqb a b = true <-> a = b.
Proof. unfold str_eqb. apply bool_decide_eq_true. Qed.

Lemma insert_same (id : pystr) (e : embedding) (idx : list (pystr * embedding)) :
  (id, e) ∈ insert id e idx.
Proof.
  induction idx as [|[i e'] idx IH]; cbn; [set_solver|].
  destruct (str_eqb i id); set_solver.
Qed.

Lemma insert_keeps (id i : pystr) (e e' : embedding) (idx : list (pystr * embedding)) :
  (i, e') ∈ idx -> exists e'', (i, e'') ∈ insert id e idx.
Proof.
  induction idx as [|[j ej] idx IH]; intros Hin; [inversion Hin|].
  cbn. destruct (str_eqb j id) eqn:Hj.
  - apply str_eqb_eq in Hj. subst j.
    apply elem_of_cons in Hin as [Heq | Hin].
    + inversion Heq; subst. exists e. set_solver.
    + exists e'. set_solver.
  - apply elem_of_cons in Hin as [Heq | Hin].
    + inversion Heq; subst. exists ej. set_solver.
    + destruct (IH Hin) as [e'' He'']. exists e''. set_solver.
Qed.

Lemma indexed_entry (idx : list (pystr * embedding)) (docs : list document) (d : document) :
  d ∈ docs -> exists e, (doc_id d, e) ∈ indexed embed idx docs.
Proof.
  induction docs as [|x docs IH] using rev_ind; intros Hin; [inversion Hin|].
  unfold indexed. rewrite foldl_app. cbn [foldl]. fold (indexed embed idx docs).
  apply elem_of_app in Hin as [Hin | Hin].
  - destruct (IH Hin) as [e He]. eapply insert_keeps, He.
  - apply list_elem_of_singleton in Hin. subst x. eexists. apply insert_same.
Qed.

Lemma insert_insert (id : pystr) (e : embedding) (idx : list (pystr * embedding)) :
  insert id e (insert id e idx) = insert id e idx.
Proof.
  induction idx as [|[i e'] idx IH]; cbn.
  - assert (H : str_eqb id id = true) by (apply str_eqb_eq; reflexivity).
    rewrite H. reflexivity.
  - destruct (str_eqb i id) eqn:Hi; cbn.
    + assert (H : str_eqb id id = true) by (apply str_eqb_eq; reflexivity).
      rewrite H. reflexivity.
    + rewrite Hi, IH. reflexivity.
Qed.

Lemma entries_for_absent (id : pystr) (idx : list (pystr * embedding)) :
  id ∉ idx.*1 -> entries_for id idx = 0%nat.
Proof.
  unfold entries_for. induction idx as [|[i e] idx IH]; intros Hnot; [reflexivity|].
  rewrite filter_cons. cbn [fst]. cbn in Hnot.
  destruct (decide (i = id)) as [-> | Hne]; [set_solver|].
  apply IH. set_solver.
Qed.

Lemma entries_for_insert (id : pystr) (e : embedding) (idx : list (pystr * embedding)) :
  NoDup idx.*1 -> entries_for id (insert id e idx) = 1%nat.
Proof.
  induction idx as [|[i e'] idx IH]; intros Hnd.
  - unfold entries_for. cbn [insert]. rewrite filter_cons. cbn [fst].
    destruct (decide (id = id)); [reflexivity | congruence].
  - cbn in Hnd. apply NoDup_cons in Hnd as [Hi Hnd].
    cbn [insert]. destruct (str_eqb i id) eqn:Heq.
    + apply str_eqb_eq in Heq. subst i.
      unfold entries_for. rewrite filter_cons. cbn [fst].
      destruct (decide (id = id)); [|congruence].
      cbn [length]. f_equal. apply (entries_for_absent id idx Hi).
    + assert (Hne : i <> id).
      { intros ->. assert (H : str_eqb id id = true) by (apply str_eqb_eq; reflexivity).
        congruence. }
      unfold entries_for. rewrite filter_cons. cbn [fst].
      destruct (decide (i = id)); [congruence|]. apply IH, Hnd.
Qed.

(** ** Ranking *)

Lemma Forall_rank_insert {A} (P : A * Q -> Prop) (x : A * Q) (l : list (A * Q)) :
  P x -> Forall P l -> Forall P (rank_insert x l).
Proof.
  intros Hx Hl. induction Hl as [|y l Hy Hl IH]; cbn.
  - constructor; [exact Hx | constructor].
  - destruct (Qle_bool (snd y) (snd x)); repeat constructor; assumption.
Qed.

Lemma rank_insert_descending {A} (x : A * Q) (l : list (A * Q)) :
  descending l -> descending (rank_insert x l).
Proof.
  unfold descending. intros Hl. induction Hl as [|y l Hl IH Hy]; cbn.
  - constructor; constructor.
  - destruct (Qle_bool (snd y) (snd x)) eqn:Hle.
    + apply Qle_bool_iff in Hle.
      constructor; [constructor; assumption|].
      constructor; [exact Hle|].
      eapply Forall_impl; [exact Hy|].
      intros z Hz. cbn in Hz. eapply Qle_trans; eassumption.
    + constructor; [exact IH|].
      apply Forall_rank_insert; [|exact Hy].
      apply Qlt_le_weak, Qnot_le_lt. intros Hle'.
      apply Qle_bool_iff in Hle'. congruence.
Qed.

Lemma rank_descending {A} (l : list (A * Q)) : descending (rank l).
Proof.
  induction l as [|x l IH]; cbn.
  - constructor.
  - apply rank_insert_descending, IH.
Qed.

Lemma rank_insert_length {A} (x : A * Q) (l : list (A * Q)) :
  length (rank_insert x l) = S (length l).
Proof.
  induction l as [|y l IH]; cbn; [reflexivity|].
  destruct (Qle_bool (snd y) (snd x)); cbn; [reflexivity | by rewrite IH].
Qed.

Lemma take_descending {A} (n : nat) (l : list (A * Q)) :
  descending l -> descending (take n l).
Proof.
  unfold descending. intros Hl. revert n.
  induction Hl as [|y l Hl IH Hy]; intros [|n]; cbn; try constructor.
  - apply IH.
  - apply Forall_take, Hy.
Qed.

(** Dropping entries, and trading each id for what it resolves to, keeps
    the order of the scores. *)
Lemma omap_descending {A B} (f : A * Q -> option (B * Q)) (l : list (A * Q)) :
  (forall x y, f x = Some y -> snd y = snd x) ->
  descending l -> descending (omap f l).
Proof.
  unfold descending. intros Hf Hl.
  induction Hl as [|x l Hl IH Hx]; cbn; [constructor|].
  destruct (f x) as [y|] eqn:Hy; [|exact IH].
  constructor; [exact IH|].
  apply Forall_forall. intros z Hz.
  apply list_elem_of_omap in Hz as (z0 & Hz0 & Hfz).
  rewrite (Hf _ _ Hy), (Hf _ _ Hfz).
  rewrite Forall_forall in Hx. apply Hx, Hz0.
Qed.

Lemma omap_length {A B} (f : A -> option B) (l : list A) :
  (length (omap f l) <= length l)%nat.
Proof.
  induction l as [|x l IH]; cbn; [lia|]. destruct (f x); cbn; lia.
Qed.

(** ** The claims *)

(** C7: for k at least 1 and a non-empty index, [retrieve] answers with at
    most k results, their scores never increasing. *)
Theorem retrieve_at_most_k_descending
    (query : pystr) (k : Z) (st : state embedding) :
  1 <= k -> vindex st <> [] ->
  exists results,
    retrieve embed similarity query k st = inr results
    /\ Z.of_nat (length results) <= k
    /\ descending results.
Proof.
  intros Hk Hidx. unfold retrieve, search.
  destruct (vindex st) as [|entry idx] eqn:Hv; [congruence|].
  eexists. split; [reflexivity|]. split.
  - etransitivity; [apply inj_le, omap_length|].
    rewrite length_take. lia.
  - apply omap_descending.
    + intros [id score] [d score'] H. cbn in H.
      destruct (get id (store st)); inversion H; reflexivity.
    + apply take_descending, rank_descending.
Qed.

(** C8: a batch is stored whole or not at all.  Either every document is
    valid, and then [putAll] stores them all and [index] adds an entry for
    each; or some document is invalid, and then both report the
    [ValidationError] of the first such document and leave the Document
    Store and the Vector Index as they were. *)
Theorem putAll_all_or_nothing (docs : list document) (st : state embedding) :
  (forallb valid docs = true
   /\ putAll docs (store st) = (None, stored (store st) docs)
   /\ index embed docs st
      = (None, {| store := stored (store st) docs;
                  vindex := indexed embed (vindex st) docs |})
   /\ forall d, d ∈ docs ->
        (exists d', d' ∈ docs /\ doc_id d' = doc_id d
                    /\ stored (store st) docs !! doc_id d = Some d')
        /\ exists e, (doc_id d, e) ∈ indexed embed (vindex st) docs)
  \/ (exists pre d post,
        docs = pre ++ d :: post /\ forallb valid pre = true /\ valid d = false
        /\ put d (stored (store st) pre) = inl ValidationError
        /\ putAll docs (store st) = (Some ValidationError, store st)
        /\ index embed docs st = (Some ValidationError, st)).
Proof.
  destruct (first_invalid docs) as [Hall | (pre & d & post & -> & Hpre & Hd)].
  - left. split; [exact Hall|].
    assert (Hput : putAll docs (store st) = (None, stored (store st) docs)).
    { unfold putAll. rewrite (put_each_valid docs _ Hall). reflexivity. }
    split; [exact Hput|]. split.
    + unfold index. rewrite Hput. reflexivity.
    + intros d Hd. split; [apply stored_lookup, Hd | apply indexed_entry, Hd].
  - right. exists pre, d, post. split; [reflexivity|].
    split; [exact Hpre|]. split; [exact Hd|].
    assert (Hput : putAll (pre ++ d :: post) (store st)
                   = (Some ValidationError, store st)).
    { unfold putAll. rewrite (put_each_invalid pre post d _ Hpre Hd). reflexivity. }
    split; [unfold put; rewrite Hd; reflexivity|].
    split; [exact Hput|].
    unfold index. rewrite Hput. reflexivity.
Qed.

(** C6: indexing a valid document a second time changes nothing: the
    state is the one after the first call, the Vector Index holds one
    entry for the id, and every search and retrieval answers the same. *)
Theorem index_idempotent (d : document) (st : state embedding) :
  valid d = true -> NoDup (vindex st).*1 ->
  let once := snd (index embed [ d ] st) in
  let twice := snd (index embed [ d ] once) in
  fst (index embed [ d ] st) = None
  /\ fst (index embed [ d ] once) = None
  /\ twice = once
  /\ entries_for (doc_id d) (vindex once) = 1%nat
  /\ entries_for (doc_id d) (vindex twice) = 1%nat
  /\ store twice !! doc_id d = Some d
  /\ (forall q k, search similarity q k (vindex twice)
                  = search similarity q k (vindex once))
  /\ (forall query k, retrieve embed similarity query k twice
                      = retrieve embed similarity query k once).
Proof.
  intros Hd Hnd.
  assert (Hstep : forall s : state embedding,
             index embed [ d ] s
             = (None, {| store := <[doc_id d := d]> (store s);
                         vindex := insert (doc_id d) (embed (doc_text d)) (vindex s) |})).
  { intros s. unfold index, putAll. cbn [put_each]. unfold put. rewrite Hd.
    reflexivity. }
  cbn zeta. rewrite !Hstep. cbn [fst snd store vindex].
  assert (Hsame : {| store := <[doc_id d := d]> (<[doc_id d := d]> (store st));
                     vindex := insert (doc_id d) (embed (doc_text d))
                                 (insert (doc_id d) (embed (doc_text d)) (vindex st)) |}
                  = {| store := <[doc_id d := d]> (store st);
                       vindex := insert (doc_id d) (embed (doc_text d)) (vindex st) |}).
  { rewrite insert_insert, insert_insert_eq. reflexivity. }
  split; [reflexivity|]. split; [reflexivity|]. split; [exact Hsame|].
  split; [apply entries_for_insert, Hnd|].
  split; [rewrite insert_insert; apply entries_for_insert, Hnd|].
  split; [apply lookup_insert_eq|].
  split; [intros q k; rewrite insert_insert; reflexivity|].
  intros query k. rewrite Hsame. reflexivity.
Qed.

End Facts.

Import Samples.

(** The scenario of section 8: paper-llm ranks above paper-eval. *)
Example retrieve_ranks_paper_llm_first :
  retrieve count_chars closeness (py "retrieval augmented language models") 2 two_papers
  = inr [ (paper_llm, 0 # 1); (paper_eval, (-6) # 1) ].
Proof. vm_compute. reflexivity. Qed.

Lemma retrieve_witness :
  1 <= 2
  /\ vindex two_papers <> []
  /\ exists results,
       retrieve count_chars closeness (py "retrieval augmented language models") 2
         two_papers = inr results
       /\ Z.of_nat (length results) <= 2
       /\ descending results.
Proof.
  assert (Hk : 1 <= 2) by lia.
  assert (Hidx : vindex two_papers <> []) by discriminate.
  split; [exact Hk|]. split; [exact Hidx|].
  apply (retrieve_at_most_k_descending Z count_chars closeness
           (py "retrieval augmented language models") 2 two_papers Hk Hidx).
Defined.

Lemma index_idempotent_witness :
  valid paper_llm = true
  /\ NoDup (vindex empty_service).*1
  /\ snd (index count_chars [ paper_llm ]
            (snd (index count_chars [ paper_llm ] empty_service)))
     = snd (index count_chars [ paper_llm ] empty_service)
  /\ entries_for (py "paper-llm")
       (vindex (snd (index count_chars [ paper_llm ]
                       (snd (index count_chars [ paper_llm ] empty_service)))))
     = 1%nat.
Proof.
  assert (Hv : valid paper_llm = true) by reflexivity.
  assert (Hnd : NoDup (vindex empty_service).*1) by constructor.
  split; [exact Hv|]. split; [exact Hnd|].
  destruct (index_idempotent Z count_chars closeness paper_llm empty_service Hv Hnd)
    as (_ & _ & Hsame & _ & Hone & _).
  split; [exact Hsame | exact Hone].
Defined.

End ServiceProofs.
